(** * Battery Monitor Pro: the sampling and alerting loop

    Shallow embedding of [BatteryMonitorPro.update_interface] and of the
    settings dialog's [save_and_close] from
    [src/battery_monitor_pro_windows.py], with the properties of the
    sampling loop stated over runs of ticks.

    Conventions of the model:
    - Python [int] is [Z]; Python [float] (battery percent, [time.time()])
      is an exact rational [Q], so float arithmetic is idealised as exact.
    - Calls into Tk, the notifier, the shell and the OS are recorded as a
      trace of [action]s; they return normally, but for the one call the
      loop makes that Tk refuses: [create_line] with a single point, in
      [draw_history].  The values they hand back
      (the sensor reading, the two clock reads of a tick, the answer to the
      hibernate question, the contents of the dialog's variables) are
      inputs of the step.
    - An exception is an explicit result; [try/except] is a match on it. *)

From Stdlib Require Import ZArith QArith Qround List String Bool Lia Lqa.
From Stdlib Require Import DecimalString.
Import ListNotations.

Open Scope Z_scope.

(** ** Python values *)

Module Py.

(** [round(x)] on a float: nearest integer, ties to the even one. *)
Definition round (x : Q) : Z :=
  let f := Qfloor x in
  match Qcompare (x - inject_Z f) (1 # 2) with
  | Lt => f
  | Gt => f + 1
  | Eq => if Z.even f then f else f + 1
  end.

(** [bool(x)] for [x] in [True], [False], [None]. *)
Definition bool_of (x : option bool) : bool :=
  match x with
  | Some true => true
  | _ => false
  end.

(** Truth value of a float: [0.0] is false. *)
Definition truthy (x : Q) : bool := negb (Qeq_bool x 0).

(** Truth value of a string: the empty string is false. *)
Definition nonempty (s : string) : bool :=
  match s with
  | EmptyString => false
  | String _ _ => true
  end.

(** [collections.deque(maxlen=n)] *)
Record deque := { items : list Z; maxlen : nat }.

Definition deque_new (n : nat) : deque := {| items := []; maxlen := n |}.

(** [d.append(x)]: push on the right, then drop from the left when the
    bound is exceeded. *)
Definition append (d : deque) (x : Z) : deque :=
  let l := items d ++ [x] in
  {| items := if (maxlen d <? List.length l)%nat then tl l else l;
     maxlen := maxlen d |}.

Definition clear (d : deque) : deque := {| items := []; maxlen := maxlen d |}.

End Py.

(** ** Configuration *)

Record config := {
  cfg_seuil_critique : Z;
  cfg_seuil_plein : Z;
  cfg_interval_ms : Z;
  cfg_history_size : Z;
  cfg_start_minimized : bool;
  cfg_enable_notifications : bool;
  cfg_play_sound : bool;
  cfg_auto_hibernate : bool;
  cfg_hibernate_threshold : Z;
  cfg_enable_power_saver_auto : bool;
  cfg_power_saver_threshold : Z;
  cfg_custom_command : string;
  cfg_autorun : bool
}.

Definition DEFAULT_CONFIG : config := {|
  cfg_seuil_critique := 15;
  cfg_seuil_plein := 95;
  cfg_interval_ms := 5000;
  cfg_history_size := 60;
  cfg_start_minimized := false;
  cfg_enable_notifications := true;
  cfg_play_sound := true;
  cfg_auto_hibernate := false;
  cfg_hibernate_threshold := 5;
  cfg_enable_power_saver_auto := false;
  cfg_power_saver_threshold := 20;
  cfg_custom_command := EmptyString;
  cfg_autorun := false
|}.

(** ** The monitor object: the attributes of [self] the loop reads or writes *)

Record monitor := {
  seuil_critique : Z;
  seuil_plein : Z;
  interval_ms : Z;
  history_size : Z;
  start_minimized : bool;
  enable_notifications : bool;
  play_sound : bool;
  auto_hibernate : bool;
  hibernate_threshold : Z;
  enable_power_saver_auto : bool;
  power_saver_threshold : Z;
  custom_command : string;
  autorun : bool;
  deja_alerte_critique : bool;
  deja_alerte_plein : bool;
  history : Py.deque;
  _running : bool;
  last_percent : option Z;
  last_update : option Q
}.

(** The attributes [__init__] assigns, lines 171-188 and 257-259, as the
    first tick finds them. *)
Definition init_attributes (c : config) : monitor := {|
  seuil_critique := cfg_seuil_critique c;
  seuil_plein := cfg_seuil_plein c;
  interval_ms := cfg_interval_ms c;
  history_size := cfg_history_size c;
  start_minimized := cfg_start_minimized c;
  enable_notifications := cfg_enable_notifications c;
  play_sound := cfg_play_sound c;
  auto_hibernate := cfg_auto_hibernate c;
  hibernate_threshold := cfg_hibernate_threshold c;
  enable_power_saver_auto := cfg_enable_power_saver_auto c;
  power_saver_threshold := cfg_power_saver_threshold c;
  custom_command := cfg_custom_command c;
  autorun := cfg_autorun c;
  deja_alerte_critique := false;
  deja_alerte_plein := false;
  history := Py.deque_new (Z.to_nat (cfg_history_size c));
  _running := true;
  last_percent := None;
  last_update := None
|}.

(** [sys.maxsize] of a 64-bit build. *)
Definition sys_maxsize : Z := 2 ^ 63 - 1.

(** [__init__] from the settings read to its first tick.
    [deque(maxlen=n)], line 188, raises [ValueError] for a negative [n] and
    [OverflowError] for an [n] above [sys.maxsize], and so does the
    constructor.  The Tk set-up of lines 190-256 is taken to return, as
    the calls into Tk are. *)
Definition new_monitor (c : config) : option monitor :=
  if (cfg_history_size c <? 0) || (sys_maxsize <? cfg_history_size c)
  then None
  else Some (init_attributes c).

(** Attribute assignments [self.x = v]. *)

Definition set_seuil_critique (v : Z) (m : monitor) : monitor :=
  {| seuil_critique := v; seuil_plein := seuil_plein m;
     interval_ms := interval_ms m; history_size := history_size m;
     start_minimized := start_minimized m;
     enable_notifications := enable_notifications m;
     play_sound := play_sound m; auto_hibernate := auto_hibernate m;
     hibernate_threshold := hibernate_threshold m;
     enable_power_saver_auto := enable_power_saver_auto m;
     power_saver_threshold := power_saver_threshold m;
     custom_command := custom_command m; autorun := autorun m;
     deja_alerte_critique := deja_alerte_critique m;
     deja_alerte_plein := deja_alerte_plein m; history := history m;
     _running := _running m; last_percent := last_percent m;
     last_update := last_update m |}.

Definition set_seuil_plein (v : Z) (m : monitor) : monitor :=
  {| seuil_critique := seuil_critique m; seuil_plein := v;
     interval_ms := interval_ms m; history_size := history_size m;
     start_minimized := start_minimized m;
     enable_notifications := enable_notifications m;
     play_sound := play_sound m; auto_hibernate := auto_hibernate m;
     hibernate_threshold := hibernate_threshold m;
     enable_power_saver_auto := enable_power_saver_auto m;
     power_saver_threshold := power_saver_threshold m;
     custom_command := custom_command m; autorun := autorun m;
     deja_alerte_critique := deja_alerte_critique m;
     deja_alerte_plein := deja_alerte_plein m; history := history m;
     _running := _running m; last_percent := last_percent m;
     last_update := last_update m |}.

Definition set_interval_ms (v : Z) (m : monitor) : monitor :=
  {| seuil_critique := seuil_critique m; seuil_plein := seuil_plein m;
     interval_ms := v; history_size := history_size m;
     start_minimized := start_minimized m;
     enable_notifications := enable_notifications m;
     play_sound := play_sound m; auto_hibernate := auto_hibernate m;
     hibernate_threshold := hibernate_threshold m;
     enable_power_saver_auto := enable_power_saver_auto m;
     power_saver_threshold := power_saver_threshold m;
     custom_command := custom_command m; autorun := autorun m;
     deja_alerte_critique := deja_alerte_critique m;
     deja_alerte_plein := deja_alerte_plein m; history := history m;
     _running := _running m; last_percent := last_percent m;
     last_update := last_update m |}.

Definition set_start_minimized (v : bool) (m : monitor) : monitor :=
  {| seuil_critique := seuil_critique m; seuil_plein := seuil_plein m;
     interval_ms := interval_ms m; history_size := history_size m;
     start_minimized := v;
     enable_notifications := enable_notifications m;
     play_sound := play_sound m; auto_hibernate := auto_hibernate m;
     hibernate_threshold := hibernate_threshold m;
     enable_power_saver_auto := enable_power_saver_auto m;
     power_saver_threshold := power_saver_threshold m;
     custom_command := custom_command m; autorun := autorun m;
     deja_alerte_critique := deja_alerte_critique m;
     deja_alerte_plein := deja_alerte_plein m; history := history m;
     _running := _running m; last_percent := last_percent m;
     last_update := last_update m |}.

Definition set_enable_notifications (v : bool) (m : monitor) : monitor :=
  {| seuil_critique := seuil_critique m; seuil_plein := seuil_plein m;
     interval_ms := interval_ms m; history_size := history_size m;
     start_minimized := start_minimized m;
     enable_notifications := v;
     play_sound := play_sound m; auto_hibernate := auto_hibernate m;
     hibernate_threshold := hibernate_threshold m;
     enable_power_saver_auto := enable_power_saver_auto m;
     power_saver_threshold := power_saver_threshold m;
     custom_command := custom_command m; autorun := autorun m;
     deja_alerte_critique := deja_alerte_critique m;
     deja_alerte_plein := deja_alerte_plein m; history := history m;
     _running := _running m; last_percent := last_percent m;
     last_update := last_update m |}.

Definition set_play_sound (v : bool) (m : monitor) : monitor :=
  {| seuil_critique := seuil_critique m; seuil_plein := seuil_plein m;
     interval_ms := interval_ms m; history_size := history_size m;
     start_minimized := start_minimized m;
     enable_notifications := enable_notifications m;
     play_sound := v; auto_hibernate := auto_hibernate m;
     hibernate_threshold := hibernate_threshold m;
     enable_power_saver_auto := enable_power_saver_auto m;
     power_saver_threshold := power_saver_threshold m;
     custom_command := custom_command m; autorun := autorun m;
     deja_alerte_critique := deja_alerte_critique m;
     deja_alerte_plein := deja_alerte_plein m; history := history m;
     _running := _running m; last_percent := last_percent m;
     last_update := last_update m |}.

Definition set_auto_hibernate (v : bool) (m : monitor) : monitor :=
  {| seuil_critique := seuil_critique m; seuil_plein := seuil_plein m;
     interval_ms := interval_ms m; history_size := history_size m;
     start_minimized := start_minimized m;
     enable_notifications := enable_notifications m;
     play_sound := play_sound m; auto_hibernate := v;
     hibernate_threshold := hibernate_threshold m;
     enable_power_saver_auto := enable_power_saver_auto m;
     power_saver_threshold := power_saver_threshold m;
     custom_command := custom_command m; autorun := autorun m;
     deja_alerte_critique := deja_alerte_critique m;
     deja_alerte_plein := deja_alerte_plein m; history := history m;
     _running := _running m; last_percent := last_percent m;
     last_update := last_update m |}.

Definition set_hibernate_threshold (v : Z) (m : monitor) : monitor :=
  {| seuil_critique := seuil_critique m; seuil_plein := seuil_plein m;
     interval_ms := interval_ms m; history_size := history_size m;
     start_minimized := start_minimized m;
     enable_notifications := enable_notifications m;
     play_sound := play_sound m; auto_hibernate := auto_hibernate m;
     hibernate_threshold := v;
     enable_power_saver_auto := enable_power_saver_auto m;
     power_saver_threshold := power_saver_threshold m;
     custom_command := custom_command m; autorun := autorun m;
     deja_alerte_critique := deja_alerte_critique m;
     deja_alerte_plein := deja_alerte_plein m; history := history m;
     _running := _running m; last_percent := last_percent m;
     last_update := last_update m |}.

Definition set_enable_power_saver_auto (v : bool) (m : monitor) : monitor :=
  {| seuil_critique := seuil_critique m; seuil_plein := seuil_plein m;
     interval_ms := interval_ms m; history_size := history_size m;
     start_minimized := start_minimized m;
     enable_notifications := enable_notifications m;
     play_sound := play_sound m; auto_hibernate := auto_hibernate m;
     hibernate_threshold := hibernate_threshold m;
     enable_power_saver_auto := v;
     power_saver_threshold := power_saver_threshold m;
     custom_command := custom_command m; autorun := autorun m;
     deja_alerte_critique := deja_alerte_critique m;
     deja_alerte_plein := deja_alerte_plein m; history := history m;
     _running := _running m; last_percent := last_percent m;
     last_update := last_update m |}.

Definition set_power_saver_threshold (v : Z) (m : monitor) : monitor :=
  {| seuil_critique := seuil_critique m; seuil_plein := seuil_plein m;
     interval_ms := interval_ms m; history_size := history_size m;
     start_minimized := start_minimized m;
     enable_notifications := enable_notifications m;
     play_sound := play_sound m; auto_hibernate := auto_hibernate m;
     hibernate_threshold := hibernate_threshold m;
     enable_power_saver_auto := enable_power_saver_auto m;
     power_saver_threshold := v;
     custom_command := custom_command m; autorun := autorun m;
     deja_alerte_critique := deja_alerte_critique m;
     deja_alerte_plein := deja_alerte_plein m; history := history m;
     _running := _running m; last_percent := last_percent m;
     last_update := last_update m |}.

Definition set_custom_command (v : string) (m : monitor) : monitor :=
  {| seuil_critique := seuil_critique m; seuil_plein := seuil_plein m;
     interval_ms := interval_ms m; history_size := history_size m;
     start_minimized := start_minimized m;
     enable_notifications := enable_notifications m;
     play_sound := play_sound m; auto_hibernate := auto_hibernate m;
     hibernate_threshold := hibernate_threshold m;
     enable_power_saver_auto := enable_power_saver_auto m;
     power_saver_threshold := power_saver_threshold m;
     custom_command := v; autorun := autorun m;
     deja_alerte_critique := deja_alerte_critique m;
     deja_alerte_plein := deja_alerte_plein m; history := history m;
     _running := _running m; last_percent := last_percent m;
     last_update := last_update m |}.

Definition set_autorun_attr (v : bool) (m : monitor) : monitor :=
  {| seuil_critique := seuil_critique m; seuil_plein := seuil_plein m;
     interval_ms := interval_ms m; history_size := history_size m;
     start_minimized := start_minimized m;
     enable_notifications := enable_notifications m;
     play_sound := play_sound m; auto_hibernate := auto_hibernate m;
     hibernate_threshold := hibernate_threshold m;
     enable_power_saver_auto := enable_power_saver_auto m;
     power_saver_threshold := power_saver_threshold m;
     custom_command := custom_command m; autorun := v;
     deja_alerte_critique := deja_alerte_critique m;
     deja_alerte_plein := deja_alerte_plein m; history := history m;
     _running := _running m; last_percent := last_percent m;
     last_update := last_update m |}.

Definition set_deja_alerte_critique (v : bool) (m : monitor) : monitor :=
  {| seuil_critique := seuil_critique m; seuil_plein := seuil_plein m;
     interval_ms := interval_ms m; history_size := history_size m;
     start_minimized := start_minimized m;
     enable_notifications := enable_notifications m;
     play_sound := play_sound m; auto_hibernate := auto_hibernate m;
     hibernate_threshold := hibernate_threshold m;
     enable_power_saver_auto := enable_power_saver_auto m;
     power_saver_threshold := power_saver_threshold m;
     custom_command := custom_command m; autorun := autorun m;
     deja_alerte_critique := v;
     deja_alerte_plein := deja_alerte_plein m; history := history m;
     _running := _running m; last_percent := last_percent m;
     last_update := last_update m |}.

Definition set_deja_alerte_plein (v : bool) (m : monitor) : monitor :=
  {| seuil_critique := seuil_critique m; seuil_plein := seuil_plein m;
     interval_ms := interval_ms m; history_size := history_size m;
     start_minimized := start_minimized m;
     enable_notifications := enable_notifications m;
     play_sound := play_sound m; auto_hibernate := auto_hibernate m;
     hibernate_threshold := hibernate_threshold m;
     enable_power_saver_auto := enable_power_saver_auto m;
     power_saver_threshold := power_saver_threshold m;
     custom_command := custom_command m; autorun := autorun m;
     deja_alerte_critique := deja_alerte_critique m;
     deja_alerte_plein := v; history := history m;
     _running := _running m; last_percent := last_percent m;
     last_update := last_update m |}.

Definition set_history (v : Py.deque) (m : monitor) : monitor :=
  {| seuil_critique := seuil_critique m; seuil_plein := seuil_plein m;
     interval_ms := interval_ms m; history_size := history_size m;
     start_minimized := start_minimized m;
     enable_notifications := enable_notifications m;
     play_sound := play_sound m; auto_hibernate := auto_hibernate m;
     hibernate_threshold := hibernate_threshold m;
     enable_power_saver_auto := enable_power_saver_auto m;
     power_saver_threshold := power_saver_threshold m;
     custom_command := custom_command m; autorun := autorun m;
     deja_alerte_critique := deja_alerte_critique m;
     deja_alerte_plein := deja_alerte_plein m; history := v;
     _running := _running m; last_percent := last_percent m;
     last_update := last_update m |}.

Definition set_running (v : bool) (m : monitor) : monitor :=
  {| seuil_critique := seuil_critique m; seuil_plein := seuil_plein m;
     interval_ms := interval_ms m; history_size := history_size m;
     start_minimized := start_minimized m;
     enable_notifications := enable_notifications m;
     play_sound := play_sound m; auto_hibernate := auto_hibernate m;
     hibernate_threshold := hibernate_threshold m;
     enable_power_saver_auto := enable_power_saver_auto m;
     power_saver_threshold := power_saver_threshold m;
     custom_command := custom_command m; autorun := autorun m;
     deja_alerte_critique := deja_alerte_critique m;
     deja_alerte_plein := deja_alerte_plein m; history := history m;
     _running := v; last_percent := last_percent m;
     last_update := last_update m |}.

Definition set_last_percent (v : option Z) (m : monitor) : monitor :=
  {| seuil_critique := seuil_critique m; seuil_plein := seuil_plein m;
     interval_ms := interval_ms m; history_size := history_size m;
     start_minimized := start_minimized m;
     enable_notifications := enable_notifications m;
     play_sound := play_sound m; auto_hibernate := auto_hibernate m;
     hibernate_threshold := hibernate_threshold m;
     enable_power_saver_auto := enable_power_saver_auto m;
     power_saver_threshold := power_saver_threshold m;
     custom_command := custom_command m; autorun := autorun m;
     deja_alerte_critique := deja_alerte_critique m;
     deja_alerte_plein := deja_alerte_plein m; history := history m;
     _running := _running m; last_percent := v;
     last_update := last_update m |}.

Definition set_last_update (v : option Q) (m : monitor) : monitor :=
  {| seuil_critique := seuil_critique m; seuil_plein := seuil_plein m;
     interval_ms := interval_ms m; history_size := history_size m;
     start_minimized := start_minimized m;
     enable_notifications := enable_notifications m;
     play_sound := play_sound m; auto_hibernate := auto_hibernate m;
     hibernate_threshold := hibernate_threshold m;
     enable_power_saver_auto := enable_power_saver_auto m;
     power_saver_threshold := power_saver_threshold m;
     custom_command := custom_command m; autorun := autorun m;
     deja_alerte_critique := deja_alerte_critique m;
     deja_alerte_plein := deja_alerte_plein m; history := history m;
     _running := _running m; last_percent := last_percent m;
     last_update := v |}.

(** [quit_app] stops the loop. *)
Definition quit_app (m : monitor) : monitor := set_running false m.

(** ** Inputs of a tick *)

(** Outcome of a call into a collaborator that may raise. *)
Inductive call (A : Type) : Type :=
| Returns (a : A)
| Raises.
Arguments Returns {A} a.
Arguments Raises {A}.

(** The named tuple [psutil.sensors_battery()] returns. *)
Record sbattery := {
  percent : Q;
  secsleft : Z;
  power_plugged : option bool
}.

Record tick := {
  sensors_battery : call (option sbattery);  (** [None]: no battery *)
  time_rate : Q;     (** [time.time()] read for the rate *)
  time_end : Q;      (** [time.time()] read for [last_update] *)
  askyesno : bool    (** answer to the hibernate question *)
}.

(** ** Trace of calls into the collaborators *)

Inductive state_text := AucuneBatterie | Branche | SurBatterie.

Inductive alert_kind := Critique | Pleine.

Inductive log_msg :=
| AlerteCritique (pct : Z)
| CommandeLancee (cmd : string)
| AutoHibernate (pct : Z)
| AlertePleine (pct : Z)
| ErreurUpdate.

Inductive action :=
| DrawGauge (pct : Z) (charging : bool)
| DrawHistory (data : list Z)
| LabelState (s : state_text)
| LabelTime (t : option (Z * nat))   (** [None] is the text [--] *)
| LabelRate (rate_per_hour : Q)
| LabelLast
| Log (msg : log_msg)
| Notify (k : alert_kind) (pct : Z) (secs : Z)
| MessageBeep
| Popen (cmd : string)
| SetPowerSaver
| AskYesNo (pct : Z)
| Hibernate
| BigAlert (pct : Z) (secs : Z) (critical full : bool)
| After (ms : Z)
| SetAutorun (enabled : bool)
| ShowWarning
| SaveConfig
| ShowInfo
| ShowError
| WinDestroy.

(** ** State, trace and exception monad *)

Definition M (A : Type) : Type := monitor -> monitor * list action * option A.

Definition ret {A} (a : A) : M A := fun m => (m, [], Some a).

Definition bind {A B} (x : M A) (f : A -> M B) : M B :=
  fun m =>
    match x m with
    | (m1, t1, Some a) =>
        let '(m2, t2, r) := f a m1 in (m2, t1 ++ t2, r)
    | (m1, t1, None) => (m1, t1, None)
    end.

Notation "x <- c1 ;; c2" := (bind c1 (fun x => c2))
  (at level 61, c1 at next level, right associativity).
Notation "c1 ;; c2" := (bind c1 (fun _ => c2))
  (at level 61, right associativity).

(** Read an attribute of [self]. *)
Definition read {A} (f : monitor -> A) : M A := fun m => (m, [], Some (f m)).

(** [self.x = v] *)
Definition assign (f : monitor -> monitor) : M unit :=
  fun m => (f m, [], Some tt).

(** A call into a collaborator that returns nothing of interest. *)
Definition emit (a : action) : M unit := fun m => (m, [a], Some tt).

(** [raise] *)
Definition raise {A} : M A := fun m => (m, [], None).

(** A call that may raise. *)
Definition calling {A} (c : call A) : M A :=
  fun m => (m, [], match c with Returns a => Some a | Raises => None end).

Definition when (b : bool) (c : M unit) : M unit := if b then c else ret tt.

(** [try: body except Exception: handler] *)
Definition try_except (body handler : M unit) : M unit :=
  fun m =>
    match body m with
    | (m1, t1, Some u) => (m1, t1, Some u)
    | (m1, t1, None) =>
        let '(m2, t2, r) := handler m1 in (m2, t1 ++ t2, r)
    end.

Section Platform.

(** [IS_WINDOWS = platform.system() == "Windows"] *)
Variable IS_WINDOWS : bool.

(** ** Helpers of the loop *)

Definition beep : M unit :=
  play <- read play_sound ;;
  when play (emit MessageBeep).

Definition windows_set_power_saver : M unit :=
  when IS_WINDOWS (emit SetPowerSaver).

Definition windows_hibernate : M unit :=
  when IS_WINDOWS (emit Hibernate).

Definition show_big_alert (pct secs : Z) (critical full : bool) : M unit :=
  emit (BigAlert pct secs critical full) ;;
  beep.

(** The rate of lines 462-469, in percent per hour. *)
Definition rate_of (lastp : option Z) (lastu : option Q) (pct : Z) (now : Q)
  : Q :=
  match lastp, lastu with
  | Some lp, Some lu =>
      if Py.truthy lu then
        let dt := ((now - lu) / 3600)%Q in
        match Qcompare dt 0 with
        | Gt => (inject_Z (pct - lp) / dt)%Q
        | _ => 0%Q
        end
      else 0%Q
  | _, _ => 0%Q
  end.

Definition rate_per_hour (m : monitor) (pct : Z) (now : Q) : Q :=
  rate_of (last_percent m) (last_update m) pct now.

(** Lines 480-507. *)
Definition critical_alert (pct secs : Z) (charging yes : bool) : M unit :=
  seuil <- read seuil_critique ;;
  if (pct <=? seuil) && negb charging then
    deja <- read deja_alerte_critique ;;
    when (negb deja) (
      emit (Log (AlerteCritique pct)) ;;
      notif <- read enable_notifications ;;
      when notif (emit (Notify Critique pct secs)) ;;
      beep ;;
      cmd <- read custom_command ;;
      when (Py.nonempty cmd)
        (emit (Popen cmd) ;; emit (Log (CommandeLancee cmd))) ;;
      saver <- read enable_power_saver_auto ;;
      when (saver && IS_WINDOWS) windows_set_power_saver ;;
      hib <- read auto_hibernate ;;
      thr <- read hibernate_threshold ;;
      when (hib && IS_WINDOWS && (pct <=? thr)) (
        emit (Log (AutoHibernate pct)) ;;
        emit (AskYesNo pct) ;;
        when yes windows_hibernate) ;;
      show_big_alert pct secs true false ;;
      assign (set_deja_alerte_critique true))
  else
    assign (set_deja_alerte_critique false).

(** Lines 510-519. *)
Definition full_alert (pct secs : Z) (charging : bool) : M unit :=
  seuil <- read seuil_plein ;;
  if charging && (seuil <=? pct) then
    deja <- read deja_alerte_plein ;;
    when (negb deja) (
      emit (Log (AlertePleine pct)) ;;
      notif <- read enable_notifications ;;
      when notif (emit (Notify Pleine pct secs)) ;;
      beep ;;
      show_big_alert pct secs false true ;;
      assign (set_deja_alerte_plein true))
  else
    assign (set_deja_alerte_plein false).

(** [draw_history], lines 404-427, as the loop meets it.  An empty
    history returns at once.  A history of one value gives [create_line]
    one point, which Tk refuses with [TclError] (wrong number of
    coordinates, at least 4 expected); nothing catches it here.  From two
    values on the line and the dots are drawn. *)
Definition draw_history : M unit :=
  h <- read history ;;
  match Py.items h with
  | [] => ret tt
  | [_] => raise
  | _ :: _ :: _ => emit (DrawHistory (Py.items h))
  end.

(** The body of the [try] of [update_interface], lines 449-523. *)
Definition update_body (tk : tick) : M unit :=
  batterie <- calling (sensors_battery tk) ;;
  match batterie with
  | None =>
      emit (DrawGauge 0 false) ;;
      emit (LabelState AucuneBatterie) ;;
      emit (LabelTime None) ;;
      assign (fun m => set_history (Py.clear (history m)) m)
  | Some b =>
      let pct := Py.round (percent b) in
      let charging := Py.bool_of (power_plugged b) in
      let secs := secsleft b in
      rate <- read (fun m => rate_per_hour m pct (time_rate tk)) ;;
      assign (fun m => set_history (Py.append (history m) pct) m) ;;
      emit (DrawGauge pct charging) ;;
      draw_history ;;
      emit (LabelState (if charging then Branche else SurBatterie)) ;;
      h <- read history ;;
      emit (LabelTime (Some (secs, List.length (Py.items h)))) ;;
      emit (LabelRate rate) ;;
      emit LabelLast ;;
      critical_alert pct secs charging (askyesno tk) ;;
      full_alert pct secs charging ;;
      assign (set_last_percent (Some pct)) ;;
      assign (set_last_update (Some (time_end tk)))
  end.

(** [update_interface], lines 445-531: one tick of the timer. *)
Definition update_interface_m (tk : tick) : M unit :=
  run <- read _running ;;
  when run (
    try_except (update_body tk) (emit (Log ErreurUpdate)) ;;
    ms <- read interval_ms ;;
    emit (After ms)).

Definition update_interface (m : monitor) (tk : tick)
  : monitor * list action :=
  fst (update_interface_m tk m).

(** The loop: the state after a list of ticks, with the trace of each. *)
Fixpoint run (m : monitor) (tks : list tick) : monitor * list (list action) :=
  match tks with
  | [] => (m, [])
  | tk :: rest =>
      let '(m1, t) := update_interface m tk in
      let '(m2, ts) := run m1 rest in
      (m2, t :: ts)
  end.

(** ** The settings dialog *)

(** Contents of the dialog's variables when [Sauvegarder] is pressed;
    [IntVar.get] raises on text that is not a number. *)
Record form := {
  crit_var : call Z;
  full_var : call Z;
  interval_var : call Z;
  auto_h_var : bool;
  hiber_var : call Z;
  ps_var : bool;
  ps_thresh_var : call Z;
  notif_var : bool;
  sound_var : bool;
  start_min_var : bool;
  cmd_var : string;
  autorun_var : bool;
  set_autorun_ok : bool   (** first component of [set_autorun]'s result *)
}.

(** [save_and_close], lines 648-673. *)
Definition save_and_close_m (f : form) : M unit :=
  try_except (
    c <- calling (crit_var f) ;;
    assign (set_seuil_critique (Z.max 1 (Z.min 99 c))) ;;
    p <- calling (full_var f) ;;
    assign (set_seuil_plein (Z.max 50 (Z.min 100 p))) ;;
    i <- calling (interval_var f) ;;
    assign (set_interval_ms (Z.max 1000 i)) ;;
    assign (set_auto_hibernate (auto_h_var f)) ;;
    h <- calling (hiber_var f) ;;
    assign (set_hibernate_threshold (Z.max 1 (Z.min 20 h))) ;;
    assign (set_enable_power_saver_auto (ps_var f)) ;;
    s <- calling (ps_thresh_var f) ;;
    assign (set_power_saver_threshold (Z.max 5 (Z.min 50 s))) ;;
    assign (set_enable_notifications (notif_var f)) ;;
    assign (set_play_sound (sound_var f)) ;;
    assign (set_start_minimized (start_min_var f)) ;;
    assign (set_custom_command (cmd_var f)) ;;
    let new_autorun := autorun_var f in
    old <- read autorun ;;
    when (negb (Bool.eqb new_autorun old) && IS_WINDOWS) (
      emit (SetAutorun new_autorun) ;;
      when (negb (set_autorun_ok f)) (emit ShowWarning)) ;;
    assign (set_autorun_attr new_autorun) ;;
    emit SaveConfig ;;
    emit ShowInfo ;;
    emit WinDestroy)
  (emit ShowError).

Definition save_and_close (m : monitor) (f : form) : monitor * list action :=
  fst (save_and_close_m f m).

(** [save_and_close] ran to its end, no [IntVar.get] raised. *)
Definition form_valid (f : form) : bool :=
  match crit_var f, full_var f, interval_var f, hiber_var f, ps_thresh_var f
  with
  | Returns _, Returns _, Returns _, Returns _, Returns _ => true
  | _, _, _, _, _ => false
  end.

(** ** Observations on a tick and on its trace *)

(** The reading of a tick, as the loop sees it: [pct], [charging]. *)
Definition reading_of (tk : tick) : option (Z * bool) :=
  match sensors_battery tk with
  | Returns (Some b) =>
      Some (Py.round (percent b), Py.bool_of (power_plugged b))
  | _ => None
  end.

Definition has_battery (tk : tick) : bool :=
  match reading_of tk with Some _ => true | None => false end.

(** The condition of line 480. *)
Definition critical_condition (seuil : Z) (tk : tick) : bool :=
  match reading_of tk with
  | Some (pct, charging) => (pct <=? seuil) && negb charging
  | None => false
  end.

(** The condition of line 510. *)
Definition full_condition (seuil : Z) (tk : tick) : bool :=
  match reading_of tk with
  | Some (pct, charging) => charging && (seuil <=? pct)
  | None => false
  end.

(** The alert windows stand for the alert events. *)
Definition is_critical_alert (a : action) : bool :=
  match a with BigAlert _ _ true _ => true | _ => false end.

Definition is_full_alert (a : action) : bool :=
  match a with BigAlert _ _ false true => true | _ => false end.

(** The actions attached to the critical alert, lines 487-503. *)
Definition is_critical_side_effect (a : action) : bool :=
  match a with
  | Popen _ | SetPowerSaver | AskYesNo _ | Hibernate => true
  | _ => false
  end.

Definition fires (p : action -> bool) (t : list action) : bool := existsb p t.

(** The rate a trace displays. *)
Fixpoint shown_rate (t : list action) : option Q :=
  match t with
  | [] => None
  | LabelRate r :: _ => Some r
  | _ :: rest => shown_rate rest
  end.

(** Rising edges of a sequence of condition values, [prev] being the value
    before the first. *)
Fixpoint rising_edges (prev : bool) (conds : list bool) : list bool :=
  match conds with
  | [] => []
  | c :: rest => (c && negb prev) :: rising_edges c rest
  end.

(** The last [n] elements. *)
Definition lastn {A} (n : nat) (l : list A) : list A :=
  skipn (List.length l - n) l.

(** The percent values a list of ticks brings, in arrival order. *)
Definition arrived (tks : list tick) : list Z :=
  flat_map (fun tk => match reading_of tk with
                      | Some (pct, _) => [pct]
                      | None => []
                      end) tks.

(** A reading with an integer percent, both clock reads at [t]. *)
Definition sample (pct : Z) (charging : bool) (t : Q) : tick :=
  {| sensors_battery :=
       Returns (Some {| percent := inject_Z pct; secsleft := -1;
                        power_plugged := Some charging |});
     time_rate := t; time_end := t; askyesno := false |}.

Definition no_battery (t : Q) : tick :=
  {| sensors_battery := Returns None;
     time_rate := t; time_end := t; askyesno := false |}.

(** The bound of a deque holds. *)
Definition bounded (d : Py.deque) : Prop :=
  (List.length (Py.items d) <= Py.maxlen d)%nat.

(** ** The parts of a trace *)

(** What the critical block adds to the trace. *)
Definition critical_trace (m : monitor) (pct secs : Z) (charging yes : bool)
  : list action :=
  snd (fst (critical_alert pct secs charging yes m)).

Definition full_trace (m : monitor) (pct secs : Z) (charging : bool)
  : list action :=
  snd (fst (full_alert pct secs charging m)).

(** [draw_history] returns on this history. *)
Definition draws (d : Py.deque) : bool :=
  match Py.items d with
  | [_] => false
  | _ => true
  end.

(** Lines 471-476, when [draw_history] returns. *)
Definition display (m : monitor) (pct secs : Z) (charging : bool) (now : Q)
  : list action :=
  let h := Py.append (history m) pct in
  [DrawGauge pct charging]
  ++ match Py.items h with
     | [] => []
     | _ :: _ => [DrawHistory (Py.items h)]
     end
  ++ [LabelState (if charging then Branche else SurBatterie);
      LabelTime (Some (secs, List.length (Py.items h)));
      LabelRate (rate_per_hour m pct now); LabelLast].

(** The tick gets to the alert blocks and to the tracker update, lines
    478-523: the loop runs, there is a battery, and [draw_history] returns
    on the history with the new value. *)
Definition completes (m : monitor) (tk : tick) : bool :=
  _running m
  && match reading_of tk with
     | Some (pct, _) => draws (Py.append (history m) pct)
     | None => false
     end.

(** A monitor on which no reading stops in [draw_history]: the history
    holds a value already and has room for two. *)
Definition warm (m : monitor) : Prop :=
  bounded (history m)
  /\ (1 <= List.length (Py.items (history m)))%nat
  /\ (2 <= Py.maxlen (history m))%nat.

(** A monitor whose history is empty and has room for a value: as the
    constructor leaves it, or as a tick without a battery does. *)
Definition cold (m : monitor) : Prop :=
  Py.items (history m) = [] /\ (1 <= Py.maxlen (history m))%nat.

(** ** Monitors and dialogs of the examples *)

Definition default_monitor : monitor := init_attributes DEFAULT_CONFIG.

(** A monitor with a history of capacity 2. *)
Definition small_monitor : monitor :=
  init_attributes {|
    cfg_seuil_critique := 15;
    cfg_seuil_plein := 95;
    cfg_interval_ms := 5000;
    cfg_history_size := 2;
    cfg_start_minimized := false;
    cfg_enable_notifications := true;
    cfg_play_sound := true;
    cfg_auto_hibernate := false;
    cfg_hibernate_threshold := 5;
    cfg_enable_power_saver_auto := false;
    cfg_power_saver_threshold := 20;
    cfg_custom_command := EmptyString;
    cfg_autorun := false
  |}.

(** The default monitor with the critical latch set. *)
Definition latched_monitor : monitor :=
  set_deja_alerte_critique true default_monitor.

(** The default monitor with a custom command. *)
Definition command_monitor : monitor :=
  set_custom_command "shutdown /h"%string default_monitor.

(** The first reading of the examples: 50 percent on battery. *)
Definition first_reading : tick := sample 50 false 1000.

(** A monitor after [first_reading]. *)
Definition warmed (m : monitor) : monitor :=
  fst (update_interface m first_reading).

(** A dialog whose numbers all read. *)
Definition form_of (crit full interval hiber ps : Z) : form :=
  {| crit_var := Returns crit;
     full_var := Returns full;
     interval_var := Returns interval;
     auto_h_var := false;
     hiber_var := Returns hiber;
     ps_var := false;
     ps_thresh_var := Returns ps;
     notif_var := true;
     sound_var := true;
     start_min_var := false;
     cmd_var := EmptyString;
     autorun_var := false;
     set_autorun_ok := true |}.

(** A dialog whose interval entry holds text that is not a number. *)
Definition form_bad_interval (crit full : Z) : form :=
  {| crit_var := Returns crit;
     full_var := Returns full;
     interval_var := Raises;
     auto_h_var := false;
     hiber_var := Returns 5;
     ps_var := false;
     ps_thresh_var := Returns 20;
     notif_var := true;
     sound_var := true;
     start_min_var := false;
     cmd_var := EmptyString;
     autorun_var := false;
     set_autorun_ok := true |}.

(** ** The alert blocks as lists *)

(** What lines 482-504 do when the critical alert fires. *)
Definition critical_actions (m : monitor) (pct secs : Z) (yes : bool)
  : list action :=
  [Log (AlerteCritique pct)]
  ++ (if enable_notifications m then [Notify Critique pct secs] else [])
  ++ (if play_sound m then [MessageBeep] else [])
  ++ (if Py.nonempty (custom_command m)
      then [Popen (custom_command m); Log (CommandeLancee (custom_command m))]
      else [])
  ++ (if enable_power_saver_auto m && IS_WINDOWS then [SetPowerSaver] else [])
  ++ (if auto_hibernate m && IS_WINDOWS && (pct <=? hibernate_threshold m)
      then [Log (AutoHibernate pct); AskYesNo pct]
           ++ (if yes then [Hibernate] else [])
      else [])
  ++ [BigAlert pct secs true false]
  ++ (if play_sound m then [MessageBeep] else []).

(** What lines 512-516 do when the full-charge alert fires. *)
Definition full_actions (m : monitor) (pct secs : Z) : list action :=
  [Log (AlertePleine pct)]
  ++ (if enable_notifications m then [Notify Pleine pct secs] else [])
  ++ (if play_sound m then [MessageBeep] else [])
  ++ [BigAlert pct secs false true]
  ++ (if play_sound m then [MessageBeep] else []).

Definition is_after (a : action) : bool :=
  match a with After _ => true | _ => false end.

Definition is_hibernate (a : action) : bool :=
  match a with Hibernate => true | _ => false end.

Definition is_set_power_saver (a : action) : bool :=
  match a with SetPowerSaver => true | _ => false end.

Definition is_notify (a : action) : bool :=
  match a with Notify _ _ _ => true | _ => false end.

Definition is_beep (a : action) : bool :=
  match a with MessageBeep => true | _ => false end.

(** The actions that only Windows has. *)
Definition is_windows_action (a : action) : bool :=
  match a with
  | SetPowerSaver | AskYesNo _ | Hibernate | SetAutorun _ => true
  | _ => false
  end.

Definition count (p : action -> bool) (t : list action) : nat :=
  List.length (filter p t).

(** The sensor call of a tick raises. *)
Definition raises (tk : tick) : bool :=
  match sensors_battery tk with Raises => true | Returns _ => false end.

(** ** The application: ticks, saves and the end, in any order *)

Inductive op :=
| Tick (tk : tick)
| Save (f : form)
| Quit.

Definition apply_op (m : monitor) (o : op) : monitor * list action :=
  match o with
  | Tick tk => update_interface m tk
  | Save f => save_and_close m f
  | Quit => (quit_app m, [])
  end.

Fixpoint run_ops (m : monitor) (ops : list op)
  : monitor * list (list action) :=
  match ops with
  | [] => (m, [])
  | o :: rest =>
      let '(m1, t) := apply_op m o in
      let '(m2, ts) := run_ops m1 rest in
      (m2, t :: ts)
  end.

(** The two trackers are set together. *)
Definition paired (m : monitor) : Prop :=
  last_percent m = None <-> last_update m = None.

(** The ranges [save_and_close] brings the settings into. *)
Definition in_range (m : monitor) : Prop :=
  1 <= seuil_critique m <= 99
  /\ 50 <= seuil_plein m <= 100
  /\ 1000 <= interval_ms m
  /\ 1 <= hibernate_threshold m <= 20
  /\ 5 <= power_saver_threshold m <= 50.


Definition is_alert (a : action) : bool :=
  is_critical_alert a || is_full_alert a.

(** The alerts of a run, in order. *)
Definition alerts_of (ts : list (list action)) : list action :=
  filter is_alert (List.concat ts).


(** ** Formatting and drawing *)

(** [str(z)] and [f"{z}"] for an integer. *)
Definition str_of_int (z : Z) : string := NilZero.string_of_int (Z.to_int z).

Section Markers.

(** The two markers of [psutil] for [secsleft]. *)
Variable POWER_TIME_UNLIMITED : Z.
Variable POWER_TIME_UNKNOWN : Z.

(** [format_time], lines 430-442. *)
Definition format_time (secs : option Z) : string :=
  match secs with
  | None => "inconnu"%string
  | Some s =>
      if s =? POWER_TIME_UNLIMITED then "illimité"%string
      else if (s =? POWER_TIME_UNKNOWN) || (s <? 0) then "calcul..."%string
      else
        let h := s / 3600 in
        let m := (s mod 3600) / 60 in
        if 0 <? h
        then (str_of_int h ++ "h " ++ str_of_int m ++ "m")%string
        else (str_of_int m ++ " min")%string
  end.

End Markers.








(** ** The dialog as it opens *)

(** What the variables of [open_settings], lines 580-643, hold when the
    dialog opens: the settings of the monitor. *)
Definition open_settings (m : monitor) (autorun_ok : bool) : form :=
  {| crit_var := Returns (seuil_critique m);
     full_var := Returns (seuil_plein m);
     interval_var := Returns (interval_ms m);
     auto_h_var := auto_hibernate m;
     hiber_var := Returns (hibernate_threshold m);
     ps_var := enable_power_saver_auto m;
     ps_thresh_var := Returns (power_saver_threshold m);
     notif_var := enable_notifications m;
     sound_var := play_sound m;
     start_min_var := start_minimized m;
     cmd_var := custom_command m;
     autorun_var := autorun m;
     set_autorun_ok := autorun_ok |}.

(** The four scales of the dialog, lines 581, 591, 610 and 623: what a
    scale can put in its variable. *)
Definition on_scales (f : form) : Prop :=
  exists c p h s,
    crit_var f = Returns c /\ 1 <= c <= 30
    /\ full_var f = Returns p /\ 80 <= p <= 100
    /\ hiber_var f = Returns h /\ 1 <= h <= 15
    /\ ps_thresh_var f = Returns s /\ 10 <= s <= 50.

Definition is_set_autorun (a : action) : bool :=
  match a with SetAutorun _ => true | _ => false end.


(** ** The configuration file *)

(** What [json.load] can return. *)
Unset Elimination Schemes.
Inductive json :=
| JNull
| JBool (b : bool)
| JInt (z : Z)
| JFloat (q : Q)
| JNonFinite               (** [NaN], [Infinity], [-Infinity] *)
| JStr (s : string)
| JArr (l : list json)
| JObj (o : list (string * json)).
Set Elimination Schemes.

Definition call_bind {A B} (c : call A) (f : A -> call B) : call B :=
  match c with
  | Returns a => f a
  | Raises => Raises
  end.

Notation "'let?' x ':=' c1 'in' c2" := (call_bind c1 (fun x => c2))
  (at level 10, x name, c1 at level 100, c2 at level 200).

Section Builtins.

(** [int(s)] for a string; [None] is [ValueError]. *)
Variable int_of_string : string -> option Z.

(** [str(v)] for a value that is not a string. *)
Variable repr : json -> string.

(** [int(v)] *)
Definition py_int (v : json) : call Z :=
  match v with
  | JBool b => Returns (if b then 1 else 0)
  | JInt z => Returns z
  | JFloat q => Returns (Z.quot (Qnum q) (Z.pos (Qden q)))
  | JStr s =>
      match int_of_string s with Some z => Returns z | None => Raises end
  | JNull | JNonFinite | JArr _ | JObj _ => Raises
  end.

(** [bool(v)] *)
Definition py_bool (v : json) : bool :=
  match v with
  | JNull => false
  | JBool b => b
  | JInt z => negb (z =? 0)
  | JFloat q => Py.truthy q
  | JNonFinite => true
  | JStr s => Py.nonempty s
  | JArr l => match l with [] => false | _ :: _ => true end
  | JObj o => match o with [] => false | _ :: _ => true end
  end.

(** [str(v)] *)
Definition py_str (v : json) : string :=
  match v with
  | JStr s => s
  | _ => repr v
  end.

(** [d.get(key, default)] on the items of a dict. *)
Fixpoint dict_get (o : list (string * json)) (key : string) (default : json)
  : json :=
  match o with
  | [] => default
  | (k, v) :: rest => if String.eqb k key then v else dict_get rest key default
  end.

(** The dict [DEFAULT_CONFIG], lines 52-66. *)
Definition DEFAULT_CONFIG_items : list (string * json) :=
  [("seuil_critique"%string, JInt 15);
   ("seuil_plein"%string, JInt 95);
   ("interval_ms"%string, JInt 5000);
   ("history_size"%string, JInt 60);
   ("start_minimized"%string, JBool false);
   ("enable_notifications"%string, JBool true);
   ("play_sound"%string, JBool true);
   ("auto_hibernate"%string, JBool false);
   ("hibernate_threshold"%string, JInt 5);
   ("enable_power_saver_auto"%string, JBool false);
   ("power_saver_threshold"%string, JInt 20);
   ("custom_command"%string, JStr EmptyString);
   ("autorun"%string, JBool false)].

(** [self.config.get(key, DEFAULT_CONFIG[key])]; a value that is not a
    dict has no [get]. *)
Definition config_get (cfg : json) (key : string) : call json :=
  match cfg with
  | JObj o => Returns (dict_get o key (dict_get DEFAULT_CONFIG_items key JNull))
  | _ => Raises
  end.

Definition get_int (cfg : json) (key : string) : call Z :=
  let? v := config_get cfg key in py_int v.

Definition get_bool (cfg : json) (key : string) : call bool :=
  let? v := config_get cfg key in Returns (py_bool v).

Definition get_str (cfg : json) (key : string) : call string :=
  let? v := config_get cfg key in Returns (py_str v).

(** Lines 171-183 of [__init__]: the settings read off the loaded value. *)
Definition read_settings (cfg : json) : call config :=
  let? sc := get_int cfg "seuil_critique" in
  let? sp := get_int cfg "seuil_plein" in
  let? ims := get_int cfg "interval_ms" in
  let? hs := get_int cfg "history_size" in
  let? smin := get_bool cfg "start_minimized" in
  let? en := get_bool cfg "enable_notifications" in
  let? ps := get_bool cfg "play_sound" in
  let? ah := get_bool cfg "auto_hibernate" in
  let? ht := get_int cfg "hibernate_threshold" in
  let? epa := get_bool cfg "enable_power_saver_auto" in
  let? pst := get_int cfg "power_saver_threshold" in
  let? cc := get_str cfg "custom_command" in
  let? ar := get_bool cfg "autorun" in
  Returns {|
    cfg_seuil_critique := sc;
    cfg_seuil_plein := sp;
    cfg_interval_ms := ims;
    cfg_history_size := hs;
    cfg_start_minimized := smin;
    cfg_enable_notifications := en;
    cfg_play_sound := ps;
    cfg_auto_hibernate := ah;
    cfg_hibernate_threshold := ht;
    cfg_enable_power_saver_auto := epa;
    cfg_power_saver_threshold := pst;
    cfg_custom_command := cc;
    cfg_autorun := ar
  |}.

(** [__init__] on a loaded value, up to its first tick: the settings read
    of lines 171-183, then the history of line 188; [None] when one of
    them raises. *)
Definition init (cfg : json) : option monitor :=
  match read_settings cfg with
  | Returns c => new_monitor c
  | Raises => None
  end.

End Builtins.

(** The dict [save_config] writes, lines 285-299. *)
Definition to_save (m : monitor) : list (string * json) :=
  [("seuil_critique"%string, JInt (seuil_critique m));
   ("seuil_plein"%string, JInt (seuil_plein m));
   ("interval_ms"%string, JInt (interval_ms m));
   ("history_size"%string, JInt (history_size m));
   ("start_minimized"%string, JBool (start_minimized m));
   ("enable_notifications"%string, JBool (enable_notifications m));
   ("play_sound"%string, JBool (play_sound m));
   ("auto_hibernate"%string, JBool (auto_hibernate m));
   ("hibernate_threshold"%string, JInt (hibernate_threshold m));
   ("enable_power_saver_auto"%string, JBool (enable_power_saver_auto m));
   ("power_saver_threshold"%string, JInt (power_saver_threshold m));
   ("custom_command"%string, JStr (custom_command m));
   ("autorun"%string, JBool (autorun m))].

(** The configuration file: absent, or present with what reading and
    parsing it gives. *)
Definition file := option (call json).

(** [save_config], lines 283-304; [write_ok] tells whether the write went
    through. *)
Definition save_config (m : monitor) (f : file) (write_ok : bool) : file :=
  if write_ok then Some (Returns (JObj (to_save m))) else f.

(** [load_config], lines 266-281: the value loaded and the file after. *)
Definition load_config (f : file) (write_ok : bool) : json * file :=
  match f with
  | Some (Returns cfg) => (cfg, f)
  | _ =>
      (JObj DEFAULT_CONFIG_items,
       if write_ok then Some (Returns (JObj DEFAULT_CONFIG_items)) else f)
  end.

(** The settings of a monitor. *)
Definition settings_of (m : monitor) : config := {|
  cfg_seuil_critique := seuil_critique m;
  cfg_seuil_plein := seuil_plein m;
  cfg_interval_ms := interval_ms m;
  cfg_history_size := history_size m;
  cfg_start_minimized := start_minimized m;
  cfg_enable_notifications := enable_notifications m;
  cfg_play_sound := play_sound m;
  cfg_auto_hibernate := auto_hibernate m;
  cfg_hibernate_threshold := hibernate_threshold m;
  cfg_enable_power_saver_auto := enable_power_saver_auto m;
  cfg_power_saver_threshold := power_saver_threshold m;
  cfg_custom_command := custom_command m;
  cfg_autorun := autorun m
|}.

(** The keys [__init__] reads with [int]. *)
Definition int_keys : list string :=
  ["seuil_critique"; "seuil_plein"; "interval_ms"; "history_size";
   "hibernate_threshold"; "power_saver_threshold"]%string.


(** ** The autorun entry *)






Section Process.

(** The registry takes two value names for the same name: it compares
    them without regard to case. *)
Variable same_name : string -> string -> bool.



(** [winreg] was imported. *)
Variable winreg_present : bool.
(** [getattr(sys, "frozen", False)], [sys.executable] and
    [os.path.abspath(sys.argv[0])]. *)
Variable frozen : bool.
Variable executable : string.
Variable script : string.


End Process.


(** ** Further monitors and ticks of the examples *)

(** The default monitor with auto hibernation on, from 10 percent down. *)
Definition hibernate_monitor : monitor :=
  set_auto_hibernate true (set_hibernate_threshold 10 default_monitor).

(** A reading of 7 percent on battery, the hibernate question answered
    yes. *)
Definition yes_tick : tick :=
  {| sensors_battery :=
       Returns (Some {| percent := inject_Z 7; secsleft := 600;
                        power_plugged := Some false |});
     time_rate := 1; time_end := 1; askyesno := true |}.

(** A tick whose sensor call raises. *)
Definition raising_tick : tick :=
  {| sensors_battery := Raises; time_rate := 1; time_end := 1;
     askyesno := false |}.


(** * Properties *)

(** ** Python helpers *)

Lemma round_inject_Z (z : Z) : Py.round (inject_Z z) = z.
Proof.
  unfold Py.round. rewrite Qfloor_Z.
  assert (E : (inject_Z z - inject_Z z == 0)%Q) by ring.
  assert (C : Qcompare (inject_Z z - inject_Z z) (1 # 2) = Lt).
  { rewrite E. reflexivity. }
  rewrite C. reflexivity.
Qed.

Lemma append_bounded (d : Py.deque) (x : Z) :
  bounded d -> bounded (Py.append d x).
Proof.
  unfold bounded, Py.append. cbn [Py.items Py.maxlen]. intros H.
  destruct (Nat.ltb_spec (Py.maxlen d) (List.length (Py.items d ++ [x]))) as [L|L].
  - destruct (Py.items d) as [|y l]; cbn in *; [lia|].
    rewrite length_app in *. cbn in *. lia.
  - exact L.
Qed.

Lemma append_maxlen (d : Py.deque) (x : Z) :
  Py.maxlen (Py.append d x) = Py.maxlen d.
Proof. reflexivity. Qed.

Lemma lastn_all {A} (n : nat) (l : list A) :
  (List.length l <= n)%nat -> lastn n l = l.
Proof.
  intros H. unfold lastn. replace (List.length l - n)%nat with 0%nat by lia.
  reflexivity.
Qed.

Lemma lastn_app_r {A} (n : nat) (l1 l2 : list A) :
  (n <= List.length l2)%nat -> lastn n (l1 ++ l2) = lastn n l2.
Proof.
  intros H. unfold lastn. rewrite length_app, skipn_app.
  replace (List.length l1 + List.length l2 - n - List.length l1)%nat
    with (List.length l2 - n)%nat by lia.
  rewrite skipn_all2 by lia. reflexivity.
Qed.

Lemma lastn_lastn_app {A} (n : nat) (l1 l2 : list A) :
  lastn n (lastn n l1 ++ l2) = lastn n (l1 ++ l2).
Proof.
  destruct (Nat.le_gt_cases (List.length l1) n) as [L|L].
  - rewrite (lastn_all n l1 L). reflexivity.
  - unfold lastn. rewrite !length_app, length_skipn, !skipn_app.
    rewrite skipn_skipn, length_skipn. f_equal; f_equal; lia.
Qed.

(** Appending keeps the last [maxlen] elements of what was there and the
    new one. *)
Lemma append_items (d : Py.deque) (x : Z) :
  bounded d ->
  Py.items (Py.append d x) = lastn (Py.maxlen d) (Py.items d ++ [x]).
Proof.
  unfold bounded, Py.append. cbn [Py.items]. intros H.
  destruct (Nat.ltb_spec (Py.maxlen d) (List.length (Py.items d ++ [x]))) as [L|L].
  - unfold lastn. rewrite length_app in *. cbn [List.length] in *.
    replace (List.length (Py.items d) + 1 - Py.maxlen d)%nat with 1%nat by lia.
    reflexivity.
  - symmetry. apply lastn_all. exact L.
Qed.

(** ** The constructor *)

(** A monitor that the constructor returns runs, has both latches down,
    tracks nothing, and has an empty history within its bound. *)
Lemma new_monitor_ready (c : config) (m : monitor) :
  new_monitor c = Some m ->
  _running m = true
  /\ deja_alerte_critique m = false
  /\ deja_alerte_plein m = false
  /\ last_percent m = None
  /\ last_update m = None
  /\ Py.items (history m) = []
  /\ bounded (history m).
Proof.
  unfold new_monitor.
  destruct ((cfg_history_size c <? 0) || (sys_maxsize <? cfg_history_size c));
    [discriminate|].
  intros E. injection E as <-. unfold bounded. cbn. repeat split. lia.
Qed.

(** ** The alert blocks *)

Ltac case_if :=
  match goal with
  | |- context [if ?b then _ else _] => destruct b eqn:?
  end.

Ltac exec :=
  cbv [bind ret read assign emit when calling try_except raise beep
       show_big_alert windows_set_power_saver windows_hibernate];
  cbn [fst snd app].

Lemma critical_alert_run m pct secs charging yes :
  critical_alert pct secs charging yes m =
  (set_deja_alerte_critique ((pct <=? seuil_critique m) && negb charging) m,
   critical_trace m pct secs charging yes, Some tt).
Proof.
  unfold critical_trace, critical_alert.
  destruct m as [sc sp ims hs smin en ps ah ht epa pst cc ar dc dp h r lp lu].
  destruct dc; exec; unfold set_deja_alerte_critique; cbn;
    repeat (case_if; cbn); reflexivity.
Qed.

Lemma full_alert_run m pct secs charging :
  full_alert pct secs charging m =
  (set_deja_alerte_plein (charging && (seuil_plein m <=? pct)) m,
   full_trace m pct secs charging, Some tt).
Proof.
  unfold full_trace, full_alert.
  destruct m as [sc sp ims hs smin en ps ah ht epa pst cc ar dc dp h r lp lu].
  destruct dp; exec; unfold set_deja_alerte_plein; cbn;
    repeat (case_if; cbn); reflexivity.
Qed.

Lemma critical_trace_idle m pct secs charging yes :
  (pct <=? seuil_critique m) && negb charging
    && negb (deja_alerte_critique m) = false ->
  critical_trace m pct secs charging yes = [].
Proof.
  unfold critical_trace, critical_alert.
  destruct m as [sc sp ims hs smin en ps ah ht epa pst cc ar dc dp h r lp lu].
  exec. cbn. intros H.
  destruct ((pct <=? sc) && negb charging); [|reflexivity].
  destruct dc; [reflexivity|discriminate].
Qed.

Lemma critical_trace_fires m pct secs charging yes :
  (pct <=? seuil_critique m) && negb charging
    && negb (deja_alerte_critique m) = true ->
  fires is_critical_alert (critical_trace m pct secs charging yes) = true
  /\ fires is_full_alert (critical_trace m pct secs charging yes) = false
  /\ shown_rate (critical_trace m pct secs charging yes) = None
  /\ In (BigAlert pct secs true false)
        (critical_trace m pct secs charging yes).
Proof.
  unfold critical_trace, critical_alert, fires.
  destruct m as [sc sp ims hs smin en ps ah ht epa pst cc ar dc dp h r lp lu].
  exec. cbn. intros H.
  destruct ((pct <=? sc) && negb charging); [|discriminate].
  destruct dc; [discriminate|]. cbn.
  repeat (case_if; cbn); intuition.
Qed.

Lemma full_trace_idle m pct secs charging :
  charging && (seuil_plein m <=? pct) && negb (deja_alerte_plein m) = false ->
  full_trace m pct secs charging = [].
Proof.
  unfold full_trace, full_alert.
  destruct m as [sc sp ims hs smin en ps ah ht epa pst cc ar dc dp h r lp lu].
  exec. cbn. intros H.
  destruct (charging && (sp <=? pct)); [|reflexivity].
  destruct dp; [reflexivity|discriminate].
Qed.

Lemma full_trace_fires m pct secs charging :
  charging && (seuil_plein m <=? pct) && negb (deja_alerte_plein m) = true ->
  fires is_full_alert (full_trace m pct secs charging) = true
  /\ fires is_critical_alert (full_trace m pct secs charging) = false
  /\ fires is_critical_side_effect (full_trace m pct secs charging) = false
  /\ shown_rate (full_trace m pct secs charging) = None
  /\ In (BigAlert pct secs false true) (full_trace m pct secs charging).
Proof.
  unfold full_trace, full_alert, fires.
  destruct m as [sc sp ims hs smin en ps ah ht epa pst cc ar dc dp h r lp lu].
  exec. cbn. intros H.
  destruct (charging && (sp <=? pct)); [|discriminate].
  destruct dp; [discriminate|]. cbn.
  repeat (case_if; cbn); intuition.
Qed.

(** The blocks read the thresholds, the switches and their own latch. *)
Lemma critical_trace_frame m h pct secs charging yes :
  critical_trace (set_history h m) pct secs charging yes
  = critical_trace m pct secs charging yes.
Proof.
  unfold critical_trace, critical_alert. destruct m.
  exec. cbn. repeat (case_if; cbn); reflexivity.
Qed.

Lemma full_trace_frame m h c pct secs charging :
  full_trace (set_deja_alerte_critique c (set_history h m)) pct secs charging
  = full_trace m pct secs charging.
Proof.
  unfold full_trace, full_alert. destruct m.
  exec. cbn. repeat (case_if; cbn); reflexivity.
Qed.

(** ** One tick, case by case *)

Lemma history_set_history h m : history (set_history h m) = h.
Proof. reflexivity. Qed.

(** [draws] tells whether [draw_history] returns. *)
Lemma draws_spec m :
  snd (draw_history m) = if draws (history m) then Some tt else None.
Proof.
  unfold draw_history, draws.
  cbv [bind ret read emit raise].
  destruct (Py.items (history m)) as [|x [|y l]]; reflexivity.
Qed.

Lemma update_interface_stopped m tk :
  _running m = false -> update_interface m tk = (m, []).
Proof.
  intros R. unfold update_interface, update_interface_m.
  exec. rewrite R. reflexivity.
Qed.

Lemma update_interface_raises m tk :
  _running m = true -> sensors_battery tk = Raises ->
  update_interface m tk = (m, [Log ErreurUpdate; After (interval_ms m)]).
Proof.
  intros R S.
  unfold update_interface, update_interface_m, update_body.
  exec. rewrite R, S. reflexivity.
Qed.

Lemma update_interface_no_battery m tk :
  _running m = true -> sensors_battery tk = Returns None ->
  update_interface m tk =
  (set_history (Py.clear (history m)) m,
   [DrawGauge 0 false; LabelState AucuneBatterie; LabelTime None;
    After (interval_ms m)]).
Proof.
  intros R S.
  unfold update_interface, update_interface_m, update_body.
  exec. rewrite R, S. destruct m. reflexivity.
Qed.

(** The reading on which [draw_history] raises: the history takes the
    value, the gauge is drawn, and that is all but the log and the timer. *)
Lemma update_interface_aborted m tk b :
  _running m = true -> sensors_battery tk = Returns (Some b) ->
  draws (Py.append (history m) (Py.round (percent b))) = false ->
  update_interface m tk =
  (set_history (Py.append (history m) (Py.round (percent b))) m,
   [DrawGauge (Py.round (percent b)) (Py.bool_of (power_plugged b));
    Log ErreurUpdate; After (interval_ms m)]).
Proof.
  intros R S D.
  unfold update_interface, update_interface_m, update_body, draw_history.
  cbv [bind ret read assign emit when calling try_except raise].
  rewrite R, S, history_set_history.
  unfold draws in D.
  destruct (Py.items (Py.append (history m) (Py.round (percent b))))
    as [|x [|y l]]; try discriminate.
  destruct m. reflexivity.
Qed.

Lemma update_interface_battery m tk b :
  _running m = true -> sensors_battery tk = Returns (Some b) ->
  draws (Py.append (history m) (Py.round (percent b))) = true ->
  let pct := Py.round (percent b) in
  let charging := Py.bool_of (power_plugged b) in
  update_interface m tk =
  (set_last_update (Some (time_end tk))
     (set_last_percent (Some pct)
        (set_deja_alerte_plein (charging && (seuil_plein m <=? pct))
           (set_deja_alerte_critique
              ((pct <=? seuil_critique m) && negb charging)
              (set_history (Py.append (history m) pct) m)))),
   display m pct (secsleft b) charging (time_rate tk)
   ++ critical_trace m pct (secsleft b) charging (askyesno tk)
   ++ full_trace m pct (secsleft b) charging
   ++ [After (interval_ms m)]).
Proof.
  intros R S D pct charging.
  unfold update_interface, update_interface_m, update_body, draw_history,
    display.
  cbv [bind ret read assign emit when calling try_except raise].
  rewrite R, S, !history_set_history. fold pct charging.
  unfold draws in D. fold pct in D.
  destruct (Py.items (Py.append (history m) pct)) as [|x [|y l]] eqn:I;
    try discriminate;
    rewrite critical_alert_run, full_alert_run;
    rewrite critical_trace_frame, full_trace_frame;
    rewrite ?history_set_history, ?I;
    destruct m; cbn; rewrite ?app_nil_r, <- ?app_assoc; reflexivity.
Qed.

(** ** What a tick leaves alone and what it fires *)

Lemma has_battery_inv tk :
  has_battery tk = true -> exists b, sensors_battery tk = Returns (Some b).
Proof.
  unfold has_battery, reading_of.
  destruct (sensors_battery tk) as [[b|]|]; try discriminate. eauto.
Qed.

Lemma reading_of_battery tk b :
  sensors_battery tk = Returns (Some b) ->
  reading_of tk = Some (Py.round (percent b), Py.bool_of (power_plugged b)).
Proof. unfold reading_of. intros ->. reflexivity. Qed.

(** The five ways through [update_interface]. *)
Lemma update_interface_cases m tk :
  (_running m = false /\ completes m tk = false
   /\ update_interface m tk = (m, []))
  \/ (_running m = true /\ sensors_battery tk = Raises
      /\ completes m tk = false
      /\ update_interface m tk
         = (m, [Log ErreurUpdate; After (interval_ms m)]))
  \/ (_running m = true /\ sensors_battery tk = Returns None
      /\ completes m tk = false
      /\ update_interface m tk
         = (set_history (Py.clear (history m)) m,
            [DrawGauge 0 false; LabelState AucuneBatterie; LabelTime None;
             After (interval_ms m)]))
  \/ (_running m = true
      /\ exists b, sensors_battery tk = Returns (Some b)
         /\ completes m tk = false
         /\ update_interface m tk
            = (set_history (Py.append (history m) (Py.round (percent b))) m,
               [DrawGauge (Py.round (percent b))
                  (Py.bool_of (power_plugged b));
                Log ErreurUpdate; After (interval_ms m)]))
  \/ (_running m = true
      /\ exists b, sensors_battery tk = Returns (Some b)
         /\ completes m tk = true
         /\ update_interface m tk
            = (set_last_update (Some (time_end tk))
                 (set_last_percent (Some (Py.round (percent b)))
                    (set_deja_alerte_plein (full_condition (seuil_plein m) tk)
                       (set_deja_alerte_critique
                          (critical_condition (seuil_critique m) tk)
                          (set_history
                             (Py.append (history m) (Py.round (percent b)))
                             m)))),
               display m (Py.round (percent b)) (secsleft b)
                 (Py.bool_of (power_plugged b)) (time_rate tk)
               ++ critical_trace m (Py.round (percent b)) (secsleft b)
                    (Py.bool_of (power_plugged b)) (askyesno tk)
               ++ full_trace m (Py.round (percent b)) (secsleft b)
                    (Py.bool_of (power_plugged b))
               ++ [After (interval_ms m)])).
Proof.
  unfold completes. destruct (_running m) eqn:R; cbn [andb].
  - right. destruct (sensors_battery tk) as [[b|]|] eqn:S.
    + right; right. rewrite (reading_of_battery tk b S).
      destruct (draws (Py.append (history m) (Py.round (percent b)))) eqn:D.
      * right. split; [reflexivity|]. exists b.
        split; [reflexivity|]. split; [reflexivity|].
        unfold critical_condition, full_condition.
        rewrite (reading_of_battery tk b S).
        exact (update_interface_battery m tk b R S D).
      * left. split; [reflexivity|]. exists b.
        split; [reflexivity|]. split; [reflexivity|].
        exact (update_interface_aborted m tk b R S D).
    + right; left. unfold reading_of. rewrite S.
      auto using update_interface_no_battery.
    + left. unfold reading_of. rewrite S.
      auto using update_interface_raises.
  - left. auto using update_interface_stopped.
Qed.

(** A tick writes the two latches, the history and the two trackers. *)
Lemma tick_frame m tk :
  let m' := fst (update_interface m tk) in
  seuil_critique m' = seuil_critique m
  /\ seuil_plein m' = seuil_plein m
  /\ interval_ms m' = interval_ms m
  /\ _running m' = _running m
  /\ Py.maxlen (history m') = Py.maxlen (history m).
Proof.
  destruct (update_interface_cases m tk)
    as [(_ & _ & E)|[(_ & _ & _ & E)|[(_ & _ & _ & E)
       |[(_ & b & _ & _ & E)|(_ & b & _ & _ & E)]]]];
    rewrite E; destruct m; cbn; auto.
Qed.

Lemma fires_app p t1 t2 : fires p (t1 ++ t2) = fires p t1 || fires p t2.
Proof. apply existsb_app. Qed.

Lemma critical_trace_fires_eq m pct secs charging yes :
  fires is_critical_alert (critical_trace m pct secs charging yes)
  = (pct <=? seuil_critique m) && negb charging
    && negb (deja_alerte_critique m).
Proof.
  destruct ((pct <=? seuil_critique m) && negb charging
            && negb (deja_alerte_critique m)) eqn:E.
  - apply critical_trace_fires. exact E.
  - rewrite critical_trace_idle by exact E. reflexivity.
Qed.

Lemma critical_trace_not_full m pct secs charging yes :
  fires is_full_alert (critical_trace m pct secs charging yes) = false.
Proof.
  destruct ((pct <=? seuil_critique m) && negb charging
            && negb (deja_alerte_critique m)) eqn:E.
  - apply critical_trace_fires. exact E.
  - rewrite critical_trace_idle by exact E. reflexivity.
Qed.

Lemma full_trace_fires_eq m pct secs charging :
  fires is_full_alert (full_trace m pct secs charging)
  = charging && (seuil_plein m <=? pct) && negb (deja_alerte_plein m).
Proof.
  destruct (charging && (seuil_plein m <=? pct)
            && negb (deja_alerte_plein m)) eqn:E.
  - apply full_trace_fires. exact E.
  - rewrite full_trace_idle by exact E. reflexivity.
Qed.

Lemma full_trace_not_critical m pct secs charging :
  fires is_critical_alert (full_trace m pct secs charging) = false
  /\ fires is_critical_side_effect (full_trace m pct secs charging) = false.
Proof.
  destruct (charging && (seuil_plein m <=? pct)
            && negb (deja_alerte_plein m)) eqn:E.
  - split; apply full_trace_fires; exact E.
  - rewrite full_trace_idle by exact E. split; reflexivity.
Qed.

Lemma display_quiet p m pct secs charging now :
  (forall a b, p (DrawGauge a b) = false) ->
  (forall l, p (DrawHistory l) = false) ->
  (forall s, p (LabelState s) = false) ->
  (forall t, p (LabelTime t) = false) ->
  (forall r, p (LabelRate r) = false) ->
  p LabelLast = false ->
  fires p (display m pct secs charging now) = false.
Proof.
  intros H1 H2 H3 H4 H5 H6. unfold display, fires.
  destruct (Py.items (Py.append (history m) pct)); cbn;
    rewrite ?H1, ?H2, ?H3, ?H4, ?H5, ?H6; reflexivity.
Qed.

(** The critical alert fires on a tick exactly when the tick gets to the
    alert blocks, the condition of line 480 holds and the latch is down. *)
Lemma tick_fires_critical m tk :
  fires is_critical_alert (snd (update_interface m tk))
  = completes m tk && critical_condition (seuil_critique m) tk
    && negb (deja_alerte_critique m).
Proof.
  destruct (update_interface_cases m tk)
    as [(_ & C & E)|[(_ & _ & C & E)|[(_ & _ & C & E)
       |[(_ & b & _ & C & E)|(_ & b & S & C & E)]]]];
    rewrite E, C; cbn [snd andb]; try reflexivity.
  rewrite !fires_app, critical_trace_fires_eq.
  rewrite (proj1 (full_trace_not_critical _ _ _ _)).
  rewrite display_quiet by reflexivity.
  unfold critical_condition. rewrite (reading_of_battery tk b S).
  cbn. rewrite !orb_false_r. reflexivity.
Qed.

Lemma tick_fires_full m tk :
  fires is_full_alert (snd (update_interface m tk))
  = completes m tk && full_condition (seuil_plein m) tk
    && negb (deja_alerte_plein m).
Proof.
  destruct (update_interface_cases m tk)
    as [(_ & C & E)|[(_ & _ & C & E)|[(_ & _ & C & E)
       |[(_ & b & _ & C & E)|(_ & b & S & C & E)]]]];
    rewrite E, C; cbn [snd andb]; try reflexivity.
  rewrite !fires_app, critical_trace_not_full, full_trace_fires_eq.
  rewrite display_quiet by reflexivity.
  unfold full_condition. rewrite (reading_of_battery tk b S).
  cbn. rewrite !orb_false_r. reflexivity.
Qed.

(** After a tick that gets to the alert blocks each latch holds the value
    its condition just had; after any other tick the latches and the
    trackers are as they were. *)
Lemma tick_latches m tk :
  let m' := fst (update_interface m tk) in
  (completes m tk = true ->
   deja_alerte_critique m' = critical_condition (seuil_critique m) tk
   /\ deja_alerte_plein m' = full_condition (seuil_plein m) tk)
  /\ (completes m tk = false ->
      deja_alerte_critique m' = deja_alerte_critique m
      /\ deja_alerte_plein m' = deja_alerte_plein m
      /\ last_percent m' = last_percent m
      /\ last_update m' = last_update m).
Proof.
  destruct (update_interface_cases m tk)
    as [(_ & C & E)|[(_ & _ & C & E)|[(_ & _ & C & E)
       |[(_ & b & _ & C & E)|(_ & b & S & C & E)]]]];
    rewrite E, C; (split; [try discriminate|try discriminate]);
    intros _; destruct m; cbn; auto.
Qed.

(** ** Warm and cold monitors *)

Lemma draws_length d :
  List.length (Py.items d) <> 1%nat -> draws d = true.
Proof.
  unfold draws. destruct (Py.items d) as [|x [|y l]]; cbn; congruence.
Qed.

Lemma append_length d x :
  bounded d ->
  List.length (Py.items (Py.append d x))
  = Nat.min (S (List.length (Py.items d))) (Py.maxlen d).
Proof.
  unfold bounded, Py.append. cbn [Py.items]. intros B.
  rewrite length_app. cbn [List.length].
  destruct (Nat.ltb_spec (Py.maxlen d) (List.length (Py.items d) + 1)) as [L|L].
  - destruct (Py.items d) as [|y l]; cbn [List.length tl app] in *; [lia|].
    rewrite length_app. cbn [List.length]. lia.
  - rewrite length_app. cbn [List.length]. lia.
Qed.

Lemma warm_draws m pct :
  warm m -> draws (Py.append (history m) pct) = true.
Proof.
  intros (B & L & Mx). apply draws_length.
  rewrite append_length by exact B. lia.
Qed.

Lemma warm_completes m tk :
  warm m -> _running m = true -> has_battery tk = true ->
  completes m tk = true.
Proof.
  intros W R H. unfold completes. rewrite R. cbn [andb].
  unfold has_battery in H.
  destruct (reading_of tk) as [[pct ch]|]; [|discriminate].
  apply warm_draws, W.
Qed.

Lemma cold_aborts m tk :
  cold m -> has_battery tk = true -> completes m tk = false.
Proof.
  intros (E & Mx) H. unfold completes.
  unfold has_battery in H.
  destruct (reading_of tk) as [[pct ch]|]; [|discriminate].
  unfold draws, Py.append. rewrite E. cbn.
  destruct (Py.maxlen (history m)) as [|n]; [lia|].
  cbn. apply andb_false_r.
Qed.

(** ** Runs of ticks *)

Lemma run_cons m tk rest :
  run m (tk :: rest)
  = (fst (run (fst (update_interface m tk)) rest),
     snd (update_interface m tk)
     :: snd (run (fst (update_interface m tk)) rest)).
Proof.
  cbn [run]. destruct (update_interface m tk) as [m1 t].
  cbn [fst snd]. destruct (run m1 rest). reflexivity.
Qed.

Lemma run_app m tks1 tks2 :
  fst (run m (tks1 ++ tks2)) = fst (run (fst (run m tks1)) tks2).
Proof.
  revert m. induction tks1 as [|tk rest IH]; intros m; [reflexivity|].
  rewrite <- app_comm_cons, !run_cons. cbn [fst]. apply IH.
Qed.

Lemma run_frame m tks :
  let m' := fst (run m tks) in
  seuil_critique m' = seuil_critique m
  /\ seuil_plein m' = seuil_plein m
  /\ _running m' = _running m
  /\ Py.maxlen (history m') = Py.maxlen (history m).
Proof.
  revert m. induction tks as [|tk rest IH]; intros m; [cbn; auto|].
  rewrite run_cons. cbn [fst].
  destruct (IH (fst (update_interface m tk))) as (A & B & C & D).
  destruct (tick_frame m tk) as (A' & B' & _ & C' & D').
  cbn zeta in *. repeat split; congruence.
Qed.

Lemma last_cons {A} (l : list A) (c d : A) : last (c :: l) d = last l c.
Proof.
  revert c d. induction l as [|x l IH]; intros c d; [reflexivity|].
  change (last (c :: x :: l) d) with (last (x :: l) d).
  rewrite (IH x d), (IH x c). reflexivity.
Qed.

(** ** The history *)

(** The value is in the history before [draw_history] is called: the
    history takes every reading, whether the tick gets further or not. *)
Lemma tick_history_battery m tk b :
  _running m = true -> sensors_battery tk = Returns (Some b) ->
  history (fst (update_interface m tk))
  = Py.append (history m) (Py.round (percent b)).
Proof.
  intros R S.
  destruct (draws (Py.append (history m) (Py.round (percent b)))) eqn:D.
  - rewrite (update_interface_battery m tk b R S D). destruct m. reflexivity.
  - rewrite (update_interface_aborted m tk b R S D). destruct m. reflexivity.
Qed.

Lemma tick_bounded m tk :
  bounded (history m) -> bounded (history (fst (update_interface m tk))).
Proof.
  intros B.
  destruct (update_interface_cases m tk)
    as [(_ & _ & E)|[(_ & _ & _ & E)|[(_ & _ & _ & E)
       |[(R & b & S & _)|(R & b & S & _)]]]].
  - rewrite E. exact B.
  - rewrite E. exact B.
  - rewrite E. destruct m. unfold bounded. cbn. lia.
  - rewrite (tick_history_battery m tk b R S). apply append_bounded, B.
  - rewrite (tick_history_battery m tk b R S). apply append_bounded, B.
Qed.

Lemma run_bounded m tks :
  bounded (history m) -> bounded (history (fst (run m tks))).
Proof.
  revert m. induction tks as [|tk rest IH]; intros m B; [exact B|].
  rewrite run_cons. cbn [fst]. apply IH, tick_bounded, B.
Qed.

Lemma arrived_length tks :
  forallb has_battery tks = true -> List.length (arrived tks) = List.length tks.
Proof.
  induction tks as [|tk rest IH]; [reflexivity|].
  cbn [forallb]. intros H. apply andb_prop in H. destruct H as [Hb Hrest].
  unfold arrived in *. cbn [flat_map]. unfold has_battery in Hb.
  destruct (reading_of tk) as [[pct ch]|]; [|discriminate].
  cbn. rewrite IH by exact Hrest. reflexivity.
Qed.

(** Over readings the history is the last [maxlen] of what it held
    followed by what arrived. *)
Lemma run_history m tks :
  _running m = true -> bounded (history m) ->
  forallb has_battery tks = true ->
  Py.items (history (fst (run m tks)))
  = lastn (Py.maxlen (history m)) (Py.items (history m) ++ arrived tks).
Proof.
  revert m. induction tks as [|tk rest IH]; intros m R B H.
  - cbn. rewrite app_nil_r. symmetry. apply lastn_all, B.
  - cbn [forallb] in H. apply andb_prop in H. destruct H as [Hb Hrest].
    destruct (has_battery_inv tk Hb) as [b S].
    destruct (tick_frame m tk) as (_ & _ & _ & R' & _). cbn zeta in R'.
    rewrite run_cons. cbn [fst].
    rewrite IH; [|congruence|apply tick_bounded, B|exact Hrest].
    rewrite (tick_history_battery m tk b R S).
    rewrite append_maxlen, (append_items _ _ B), lastn_lastn_app.
    unfold arrived. cbn [flat_map]. rewrite (reading_of_battery tk b S).
    rewrite <- app_assoc. reflexivity.
Qed.

(** ** Readings on warm and on cold monitors *)

(** A reading leaves a warm monitor warm. *)
Lemma warm_tick m tk :
  warm m -> _running m = true -> has_battery tk = true ->
  warm (fst (update_interface m tk)).
Proof.
  intros (B & L & Mx) R H. destruct (has_battery_inv tk H) as [b S].
  unfold warm. rewrite (tick_history_battery m tk b R S).
  rewrite append_maxlen, (append_length _ _ B).
  split; [apply append_bounded, B|]. split; [lia|exact Mx].
Qed.

(** The reading a cold monitor takes stops in [draw_history]: no alert,
    the latches and the trackers as they were; with room for two values
    the monitor is warm afterwards. *)
Lemma cold_tick m tk :
  cold m -> _running m = true -> has_battery tk = true ->
  let m' := fst (update_interface m tk) in
  fires is_critical_alert (snd (update_interface m tk)) = false
  /\ fires is_full_alert (snd (update_interface m tk)) = false
  /\ shown_rate (snd (update_interface m tk)) = None
  /\ deja_alerte_critique m' = deja_alerte_critique m
  /\ deja_alerte_plein m' = deja_alerte_plein m
  /\ last_percent m' = last_percent m
  /\ last_update m' = last_update m
  /\ ((2 <= Py.maxlen (history m))%nat -> warm m').
Proof.
  intros C R H m'. pose proof (cold_aborts m tk C H) as A.
  destruct (tick_latches m tk) as (_ & K). specialize (K A).
  destruct K as (K1 & K2 & K3 & K4).
  rewrite tick_fires_critical, tick_fires_full, A. cbn [andb].
  repeat split; try assumption.
  - destruct (update_interface_cases m tk)
      as [(_ & _ & E)|[(_ & _ & _ & E)|[(_ & _ & _ & E)
         |[(_ & b & _ & _ & E)|(_ & b & _ & A' & E)]]]];
      [rewrite E; reflexivity..|congruence].
  - destruct (has_battery_inv tk H) as [b S].
    subst m'. rewrite (tick_history_battery m tk b R S).
    destruct C as (E & Mx).
    assert (B : bounded (history m)) by (unfold bounded; rewrite E; cbn; lia).
    apply append_bounded, B.
  - destruct (has_battery_inv tk H) as [b S].
    subst m'. rewrite (tick_history_battery m tk b R S).
    destruct C as (E & Mx).
    assert (B : bounded (history m)) by (unfold bounded; rewrite E; cbn; lia).
    rewrite (append_length _ _ B), E. cbn [List.length]. lia.
  - destruct (has_battery_inv tk H) as [b S].
    subst m'. rewrite (tick_history_battery m tk b R S), append_maxlen.
    assumption.
Qed.

(** ** Edge-triggered alerts *)

Lemma run_fires_critical m tks :
  _running m = true -> warm m -> forallb has_battery tks = true ->
  map (fires is_critical_alert) (snd (run m tks))
  = rising_edges (deja_alerte_critique m)
      (map (critical_condition (seuil_critique m)) tks)
  /\ deja_alerte_critique (fst (run m tks))
     = last (map (critical_condition (seuil_critique m)) tks)
         (deja_alerte_critique m).
Proof.
  revert m. induction tks as [|tk rest IH]; intros m R W H; [cbn; auto|].
  cbn [forallb] in H. apply andb_prop in H. destruct H as [Hb Hrest].
  destruct (tick_frame m tk) as (Sc & _ & _ & R' & _).
  pose proof (warm_completes m tk W R Hb) as C.
  destruct (tick_latches m tk) as (L & _). destruct (L C) as (L1 & _).
  cbn zeta in *.
  rewrite run_cons. cbn [fst snd map rising_edges].
  rewrite tick_fires_critical, C. cbn [andb].
  destruct (IH (fst (update_interface m tk))) as (IH1 & IH2);
    [congruence|apply warm_tick; assumption|exact Hrest|].
  rewrite IH1, IH2, Sc, L1. split; [reflexivity|].
  symmetry. apply last_cons.
Qed.

Lemma run_fires_full m tks :
  _running m = true -> warm m -> forallb has_battery tks = true ->
  map (fires is_full_alert) (snd (run m tks))
  = rising_edges (deja_alerte_plein m)
      (map (full_condition (seuil_plein m)) tks)
  /\ deja_alerte_plein (fst (run m tks))
     = last (map (full_condition (seuil_plein m)) tks)
         (deja_alerte_plein m).
Proof.
  revert m. induction tks as [|tk rest IH]; intros m R W H; [cbn; auto|].
  cbn [forallb] in H. apply andb_prop in H. destruct H as [Hb Hrest].
  destruct (tick_frame m tk) as (_ & Sp & _ & R' & _).
  pose proof (warm_completes m tk W R Hb) as C.
  destruct (tick_latches m tk) as (L & _). destruct (L C) as (_ & L2).
  cbn zeta in *.
  rewrite run_cons. cbn [fst snd map rising_edges].
  rewrite tick_fires_full, C. cbn [andb].
  destruct (IH (fst (update_interface m tk))) as (IH1 & IH2);
    [congruence|apply warm_tick; assumption|exact Hrest|].
  rewrite IH1, IH2, Sp, L2. split; [reflexivity|].
  symmetry. apply last_cons.
Qed.

(** From a cold monitor the first reading is lost to the alerts: the run
    fires as the run of the other readings does from the same latches. *)
Lemma run_cold m tk tks :
  _running m = true -> cold m -> (2 <= Py.maxlen (history m))%nat ->
  forallb has_battery (tk :: tks) = true ->
  map (fires is_critical_alert) (snd (run m (tk :: tks)))
  = false :: rising_edges (deja_alerte_critique m)
               (map (critical_condition (seuil_critique m)) tks)
  /\ map (fires is_full_alert) (snd (run m (tk :: tks)))
     = false :: rising_edges (deja_alerte_plein m)
                  (map (full_condition (seuil_plein m)) tks)
  /\ deja_alerte_critique (fst (run m (tk :: tks)))
     = last (map (critical_condition (seuil_critique m)) tks)
         (deja_alerte_critique m)
  /\ deja_alerte_plein (fst (run m (tk :: tks)))
     = last (map (full_condition (seuil_plein m)) tks)
         (deja_alerte_plein m).
Proof.
  intros R C Mx H.
  cbn [forallb] in H. apply andb_prop in H. destruct H as [Hb Hrest].
  destruct (cold_tick m tk C R Hb) as (F1 & F2 & _ & L1 & L2 & _ & _ & W).
  destruct (tick_frame m tk) as (Sc & Sp & _ & R' & _). cbn zeta in *.
  rewrite run_cons. cbn [fst snd map]. rewrite F1, F2.
  destruct (run_fires_critical (fst (update_interface m tk)) tks)
    as (A1 & A2); [congruence|exact (W Mx)|exact Hrest|].
  destruct (run_fires_full (fst (update_interface m tk)) tks)
    as (B1 & B2); [congruence|exact (W Mx)|exact Hrest|].
  rewrite A1, A2, B1, B2, Sc, Sp, L1, L2. auto.
Qed.

(** C1.  The edge-trigger law holds from a warm monitor, one whose history
    holds a value already: over any run of readings with a battery present
    the critical alert fires exactly on the rising edges of the condition
    [pct <= seuil_critique and not charging], the latch standing for the
    value before the first reading, and the latch ends at the last value of
    the condition.  From a cold monitor (an empty history: after start-up,
    or after a tick without a battery) the law fails: the first reading
    stops in [draw_history] before the alert block, so two readings that
    both meet the condition fire the alert on the second one, where the law
    puts it on the first.  The example of the claim is not touched by this:
    with a threshold of 15 and the latch down, the percents 20, 16, 14, 12,
    16 on battery fire one alert, on the 14, and leave the latch down, from
    a cold monitor too. *)
Theorem critical_alert_edge_triggered :
  (forall m tks,
      _running m = true -> warm m -> forallb has_battery tks = true ->
      map (fires is_critical_alert) (snd (run m tks))
      = rising_edges (deja_alerte_critique m)
          (map (critical_condition (seuil_critique m)) tks)
      /\ deja_alerte_critique (fst (run m tks))
         = last (map (critical_condition (seuil_critique m)) tks)
             (deja_alerte_critique m))
  /\ (forall m tk1 tk2,
         _running m = true -> cold m -> (2 <= Py.maxlen (history m))%nat ->
         deja_alerte_critique m = false ->
         has_battery tk1 = true -> has_battery tk2 = true ->
         critical_condition (seuil_critique m) tk1 = true ->
         critical_condition (seuil_critique m) tk2 = true ->
         map (fires is_critical_alert) (snd (run m [tk1; tk2]))
         = [false; true]
         /\ rising_edges (deja_alerte_critique m)
              (map (critical_condition (seuil_critique m)) [tk1; tk2])
            = [true; false])
  /\ (forall m,
         _running m = true -> cold m -> (2 <= Py.maxlen (history m))%nat ->
         deja_alerte_critique m = false -> seuil_critique m = 15 ->
         let r := run m [sample 20 false 1; sample 16 false 2;
                         sample 14 false 3; sample 12 false 4;
                         sample 16 false 5] in
         map (fires is_critical_alert) (snd r)
         = [false; false; true; false; false]
         /\ deja_alerte_critique (fst r) = false).
Proof.
  split; [exact run_fires_critical|]. split.
  - intros m tk1 tk2 R C Mx L H1 H2 C1 C2.
    destruct (run_cold m tk1 [tk2] R C Mx) as (A & _).
    { cbn [forallb]. rewrite H1, H2. reflexivity. }
    rewrite A. cbn [map rising_edges]. rewrite C1, C2, L. auto.
  - intros m R C Mx L S r. subst r.
    destruct (run_cold m (sample 20 false 1)
                [sample 16 false 2; sample 14 false 3; sample 12 false 4;
                 sample 16 false 5] R C Mx eq_refl) as (A & _ & B & _).
    rewrite A, B, L, S. split; reflexivity.
Qed.

(** C2.  The edge-trigger law of the full-charge alert holds from a warm
    monitor: over any run of readings with a battery present the alert
    fires exactly on the rising edges of the condition
    [charging and pct >= seuil_plein], and its latch ends at the last value
    of the condition.  From a cold monitor the first reading stops in
    [draw_history] before the alert block, so two readings that both meet
    the condition fire the alert on the second one, where the law puts it
    on the first.  The example of the claim is not touched by this: with a
    threshold of 95 and the latch down, the percents 90, 96, 97, 96 while
    charging fire one alert, on the first 96, from a cold monitor too. *)
Theorem full_alert_edge_triggered :
  (forall m tks,
      _running m = true -> warm m -> forallb has_battery tks = true ->
      map (fires is_full_alert) (snd (run m tks))
      = rising_edges (deja_alerte_plein m)
          (map (full_condition (seuil_plein m)) tks)
      /\ deja_alerte_plein (fst (run m tks))
         = last (map (full_condition (seuil_plein m)) tks)
             (deja_alerte_plein m))
  /\ (forall m tk1 tk2,
         _running m = true -> cold m -> (2 <= Py.maxlen (history m))%nat ->
         deja_alerte_plein m = false ->
         has_battery tk1 = true -> has_battery tk2 = true ->
         full_condition (seuil_plein m) tk1 = true ->
         full_condition (seuil_plein m) tk2 = true ->
         map (fires is_full_alert) (snd (run m [tk1; tk2])) = [false; true]
         /\ rising_edges (deja_alerte_plein m)
              (map (full_condition (seuil_plein m)) [tk1; tk2])
            = [true; false])
  /\ (forall m,
         _running m = true -> cold m -> (2 <= Py.maxlen (history m))%nat ->
         deja_alerte_plein m = false -> seuil_plein m = 95 ->
         let r := run m [sample 90 true 1; sample 96 true 2;
                         sample 97 true 3; sample 96 true 4] in
         map (fires is_full_alert) (snd r) = [false; true; false; false]
         /\ deja_alerte_plein (fst r) = true).
Proof.
  split; [exact run_fires_full|]. split.
  - intros m tk1 tk2 R C Mx L H1 H2 C1 C2.
    destruct (run_cold m tk1 [tk2] R C Mx) as (_ & A & _).
    { cbn [forallb]. rewrite H1, H2. reflexivity. }
    rewrite A. cbn [map rising_edges]. rewrite C1, C2, L. auto.
  - intros m R C Mx L S r. subst r.
    destruct (run_cold m (sample 90 true 1)
                [sample 96 true 2; sample 97 true 3; sample 96 true 4]
                R C Mx eq_refl) as (_ & A & _ & B).
    rewrite A, B, L, S. split; reflexivity.
Qed.

(** C3, as the loop has it.  The history never holds more than its
    capacity, whatever the ticks; and once at least capacity readings with
    a battery present have arrived in a row (that is, since the last tick
    without a battery, which empties the history) it holds exactly the
    last capacity percent values, oldest first. *)
Theorem history_ring_buffer m pre tks :
  bounded (history m) ->
  bounded (history (fst (run m (pre ++ tks))))
  /\ (_running m = true -> forallb has_battery tks = true ->
      (Py.maxlen (history m) <= List.length tks)%nat ->
      Py.items (history (fst (run m (pre ++ tks))))
      = lastn (Py.maxlen (history m)) (arrived tks)).
Proof.
  intros B. split; [apply run_bounded, B|].
  intros R H L. rewrite run_app.
  destruct (run_frame m pre) as (_ & _ & R' & Mx). cbn zeta in *.
  rewrite run_history; [|congruence|apply run_bounded, B|exact H].
  rewrite Mx. apply lastn_app_r. rewrite arrived_length by exact H. exact L.
Qed.

(** ** One alert at most, and the actions of the critical alert *)

(** C9.  No tick fires both the critical and the full-charge alert: the
    one wants [charging] false, the other wants it true. *)
Theorem alerts_exclusive m tk :
  fires is_critical_alert (snd (update_interface m tk))
  && fires is_full_alert (snd (update_interface m tk)) = false.
Proof.
  rewrite tick_fires_critical, tick_fires_full.
  unfold critical_condition, full_condition.
  destruct (completes m tk); [|reflexivity].
  destruct (reading_of tk) as [[pct [|]]|]; cbn;
    rewrite ?andb_false_r; reflexivity.
Qed.

Lemma critical_trace_side_effect m pct secs charging yes :
  fires is_critical_side_effect (critical_trace m pct secs charging yes) = true ->
  (pct <=? seuil_critique m) && negb charging
    && negb (deja_alerte_critique m) = true.
Proof.
  destruct ((pct <=? seuil_critique m) && negb charging
            && negb (deja_alerte_critique m)) eqn:E; [reflexivity|].
  rewrite critical_trace_idle by exact E. discriminate.
Qed.

Lemma tick_side_effect m tk :
  fires is_critical_side_effect (snd (update_interface m tk)) = true ->
  completes m tk && critical_condition (seuil_critique m) tk
    && negb (deja_alerte_critique m) = true.
Proof.
  destruct (update_interface_cases m tk)
    as [(_ & C & E)|[(_ & _ & C & E)|[(_ & _ & C & E)
       |[(_ & b & _ & C & E)|(_ & b & S & C & E)]]]];
    rewrite E, C; cbn [snd andb]; try discriminate.
  rewrite !fires_app.
  rewrite (proj2 (full_trace_not_critical _ _ _ _)).
  rewrite display_quiet by reflexivity.
  unfold critical_condition. rewrite (reading_of_battery tk b S).
  cbn. rewrite !orb_false_r. apply critical_trace_side_effect.
Qed.

(** C10.  The custom command, the switch to the power saver, the hibernate
    question and the hibernation after it happen only on a tick that fires
    the critical alert; on a tick that finds the latch set none of them
    happens. *)
Theorem critical_side_effects_only_with_alert m tk :
  (fires is_critical_side_effect (snd (update_interface m tk)) = true ->
   fires is_critical_alert (snd (update_interface m tk)) = true
   /\ deja_alerte_critique m = false)
  /\ (deja_alerte_critique m = true ->
      fires is_critical_side_effect (snd (update_interface m tk)) = false).
Proof.
  split.
  - intros H. apply tick_side_effect in H.
    rewrite tick_fires_critical. split; [exact H|].
    destruct (deja_alerte_critique m); [|reflexivity].
    rewrite andb_false_r in H. discriminate.
  - intros L.
    destruct (fires is_critical_side_effect (snd (update_interface m tk)))
      eqn:E; [|reflexivity].
    apply tick_side_effect in E. rewrite L, andb_false_r in E. discriminate.
Qed.

(** ** The rate *)

Lemma truthy_true (x : Q) : Py.truthy x = true <-> ~ (x == 0)%Q.
Proof.
  unfold Py.truthy. destruct (Qeq_bool x 0) eqn:E; cbn.
  - apply Qeq_bool_iff in E. split; [discriminate|contradiction].
  - split; [|reflexivity].
    intros _ H. apply Qeq_bool_iff in H. congruence.
Qed.

Lemma truthy_false (x : Q) : Py.truthy x = false <-> (x == 0)%Q.
Proof.
  unfold Py.truthy. rewrite negb_false_iff. apply Qeq_bool_iff.
Qed.

(** With a tracked reading, a non-zero tracked time and time elapsed
    since, the rate is the difference over the hours elapsed. *)
Lemma rate_of_elapsed (lp pct : Z) (lu now : Q) :
  ~ (lu == 0)%Q -> (lu < now)%Q ->
  (rate_of (Some lp) (Some lu) pct now
   == inject_Z (pct - lp) / ((now - lu) / 3600))%Q.
Proof.
  intros NZ LT. unfold rate_of.
  rewrite (proj2 (truthy_true lu) NZ).
  assert (P : (0 < (now - lu) / 3600)%Q).
  { apply Qlt_shift_div_l; [reflexivity|]. lra. }
  apply Qgt_alt in P. rewrite P. reflexivity.
Qed.

(** With no time elapsed, or the clock gone back, the rate is zero. *)
Lemma rate_of_not_elapsed (lp : option Z) (pct : Z) (lu now : Q) :
  (now <= lu)%Q -> rate_of lp (Some lu) pct now = 0%Q.
Proof.
  intros LE. unfold rate_of. destruct lp as [lp|]; [|reflexivity].
  destruct (Py.truthy lu); [|reflexivity].
  assert (P : ((now - lu) / 3600 <= 0)%Q).
  { apply Qle_shift_div_r; [reflexivity|]. lra. }
  destruct (Qcompare ((now - lu) / 3600) 0) eqn:C; [reflexivity|reflexivity|].
  apply Qgt_alt in C. lra.
Qed.

(** A tracked time of zero counts as no tracked time. *)
Lemma rate_of_zero_time (lp : option Z) (pct : Z) (lu now : Q) :
  (lu == 0)%Q -> rate_of lp (Some lu) pct now = 0%Q.
Proof.
  intros Z0. unfold rate_of. destruct lp as [lp|]; [|reflexivity].
  rewrite (proj2 (truthy_false lu) Z0). reflexivity.
Qed.

Lemma rate_of_no_prior (lp : option Z) (lu : option Q) (pct : Z) (now : Q) :
  lp = None \/ lu = None -> rate_of lp lu pct now = 0%Q.
Proof.
  intros [-> | ->]; [reflexivity|]. destruct lp; reflexivity.
Qed.

Lemma shown_rate_display m pct secs charging now rest :
  shown_rate (display m pct secs charging now ++ rest)
  = Some (rate_per_hour m pct now).
Proof.
  unfold display.
  destruct (Py.items (Py.append (history m) pct)); reflexivity.
Qed.

(** The rate is shown on the reading that gets past [draw_history]. *)
Lemma tick_shown_rate m tk b :
  _running m = true -> sensors_battery tk = Returns (Some b) ->
  draws (Py.append (history m) (Py.round (percent b))) = true ->
  shown_rate (snd (update_interface m tk))
  = Some (rate_per_hour m (Py.round (percent b)) (time_rate tk)).
Proof.
  intros R S D. rewrite (update_interface_battery m tk b R S D).
  cbn [snd]. apply shown_rate_display.
Qed.

Lemma tick_trackers m tk b :
  _running m = true -> sensors_battery tk = Returns (Some b) ->
  draws (Py.append (history m) (Py.round (percent b))) = true ->
  last_percent (fst (update_interface m tk)) = Some (Py.round (percent b))
  /\ last_update (fst (update_interface m tk)) = Some (time_end tk).
Proof.
  intros R S D. rewrite (update_interface_battery m tk b R S D).
  destruct m. split; reflexivity.
Qed.

(** The reading that stops in [draw_history] shows no rate and tracks
    nothing. *)
Lemma tick_untracked m tk b :
  _running m = true -> sensors_battery tk = Returns (Some b) ->
  draws (Py.append (history m) (Py.round (percent b))) = false ->
  shown_rate (snd (update_interface m tk)) = None
  /\ last_percent (fst (update_interface m tk)) = last_percent m
  /\ last_update (fst (update_interface m tk)) = last_update m.
Proof.
  intros R S D. rewrite (update_interface_aborted m tk b R S D).
  destruct m. repeat split; reflexivity.
Qed.

(** C5.  The rate of a reading with a battery present, as lines 462-469
    compute it from the two trackers: the difference of percents over the
    hours elapsed since the tracked time, when a reading is tracked, the
    tracked time is not zero and time has elapsed; zero when no time has
    elapsed or the clock went back; zero when nothing is tracked or the
    tracked time is zero.  A reading that gets past [draw_history] shows
    this rate and is tracked; a reading that stops there shows none and is
    not tracked.  So from a cold monitor that tracks nothing, 50 percent at
    [t0] then 45 percent 1800 seconds later shows no rate and then 0: the
    50 was never tracked.  From a warm monitor, and [t0] not zero, the same
    two readings show -10 percent per hour. *)
Theorem rate_per_hour_spec :
  (forall m tk b,
      _running m = true -> sensors_battery tk = Returns (Some b) ->
      let pct := Py.round (percent b) in
      let now := time_rate tk in
      let r := rate_per_hour m pct now in
      let m' := fst (update_interface m tk) in
      (forall lp lu,
          last_percent m = Some lp -> last_update m = Some lu ->
          ~ (lu == 0)%Q -> (lu < now)%Q ->
          (r == inject_Z (pct - lp) / ((now - lu) / 3600))%Q)
      /\ (forall lu, last_update m = Some lu -> (now <= lu)%Q -> r = 0%Q)
      /\ (forall lu, last_update m = Some lu -> (lu == 0)%Q -> r = 0%Q)
      /\ (last_percent m = None \/ last_update m = None -> r = 0%Q)
      /\ (draws (Py.append (history m) pct) = true ->
          shown_rate (snd (update_interface m tk)) = Some r
          /\ last_percent m' = Some pct
          /\ last_update m' = Some (time_end tk))
      /\ (draws (Py.append (history m) pct) = false ->
          shown_rate (snd (update_interface m tk)) = None
          /\ last_percent m' = last_percent m
          /\ last_update m' = last_update m))
  /\ (forall m charging (t0 : Q),
         _running m = true -> cold m -> (2 <= Py.maxlen (history m))%nat ->
         last_percent m = None ->
         let ts := snd (run m [sample 50 charging t0;
                               sample 45 charging (t0 + 1800)%Q]) in
         shown_rate (nth 0 ts []) = None
         /\ shown_rate (nth 1 ts []) = Some 0%Q)
  /\ (forall m charging (t0 : Q),
         _running m = true -> warm m -> ~ (t0 == 0)%Q ->
         exists r,
           shown_rate
             (nth 1 (snd (run m [sample 50 charging t0;
                                 sample 45 charging (t0 + 1800)%Q])) [])
           = Some r
           /\ (r == -10)%Q).
Proof.
  split; [|split].
  - intros m tk b R S pct now r m'. subst r m'.
    unfold rate_per_hour. repeat split.
    + intros lp lu -> ->. apply rate_of_elapsed.
    + intros lu ->. apply rate_of_not_elapsed.
    + intros lu ->. apply rate_of_zero_time.
    + apply rate_of_no_prior.
    + apply (tick_shown_rate m tk b R S H).
    + apply (tick_trackers m tk b R S H).
    + apply (tick_trackers m tk b R S H).
    + apply (tick_untracked m tk b R S H).
    + apply (tick_untracked m tk b R S H).
    + apply (tick_untracked m tk b R S H).
  - intros m charging t0 R C Mx LP ts. subst ts.
    set (tk1 := sample 50 charging t0).
    set (tk2 := sample 45 charging (t0 + 1800)%Q).
    destruct (tick_frame m tk1) as (_ & _ & _ & R1 & _). cbn zeta in R1.
    destruct (cold_tick m tk1 C R eq_refl) as (_ & _ & N & _ & _ & P & _ & W).
    cbn zeta in P, W. specialize (W Mx).
    rewrite !run_cons. cbn [snd nth]. split; [exact N|].
    rewrite (tick_shown_rate _ tk2 _ (eq_trans R1 R) eq_refl)
      by (apply warm_draws, W).
    unfold rate_per_hour. rewrite P, LP. reflexivity.
  - intros m charging t0 R W NZ.
    set (tk1 := sample 50 charging t0).
    set (tk2 := sample 45 charging (t0 + 1800)%Q).
    destruct (tick_frame m tk1) as (_ & _ & _ & R1 & _). cbn zeta in R1.
    destruct (tick_trackers m tk1 _ R eq_refl (warm_draws m _ W)) as (P1 & U1).
    pose proof (warm_tick m tk1 W R eq_refl) as W1.
    rewrite !run_cons. cbn [snd nth].
    rewrite (tick_shown_rate _ tk2 _ (eq_trans R1 R) eq_refl)
      by (apply warm_draws, W1).
    eexists. split; [reflexivity|].
    unfold rate_per_hour. rewrite P1, U1.
    cbn [percent tk1 tk2 sample time_end time_rate].
    rewrite !round_inject_Z.
    rewrite rate_of_elapsed; [|exact NZ|lra].
    assert (E : ((t0 + 1800 - t0) / 3600 == 1 # 2)%Q) by field.
    rewrite E. reflexivity.
Qed.

(** ** Exceptions and the tick without a battery *)




(** ** The settings dialog *)

Ltac case_call :=
  match goal with
  | |- context [match ?c with Returns _ => _ | Raises => _ end] =>
      destruct c
  end.

(** [save_and_close] writes the settings and nothing else. *)
Lemma save_and_close_frame m f :
  let m' := fst (save_and_close m f) in
  deja_alerte_critique m' = deja_alerte_critique m
  /\ deja_alerte_plein m' = deja_alerte_plein m
  /\ history m' = history m
  /\ last_percent m' = last_percent m
  /\ last_update m' = last_update m
  /\ _running m' = _running m
  /\ history_size m' = history_size m.
Proof.
  unfold save_and_close, save_and_close_m.
  destruct m, f. exec. cbn.
  repeat (first [case_call | case_if]; cbn); repeat split; reflexivity.
Qed.

Lemma save_and_close_thresholds m f c p :
  crit_var f = Returns c -> full_var f = Returns p ->
  let m' := fst (save_and_close m f) in
  seuil_critique m' = Z.max 1 (Z.min 99 c)
  /\ seuil_plein m' = Z.max 50 (Z.min 100 p).
Proof.
  unfold save_and_close, save_and_close_m.
  destruct m, f. exec. cbn. intros -> ->.
  repeat (first [case_call | case_if]; cbn); split; reflexivity.
Qed.

Lemma save_and_close_valid m f c p i h s :
  crit_var f = Returns c -> full_var f = Returns p ->
  interval_var f = Returns i -> hiber_var f = Returns h ->
  ps_thresh_var f = Returns s ->
  let m' := fst (save_and_close m f) in
  seuil_critique m' = Z.max 1 (Z.min 99 c)
  /\ seuil_plein m' = Z.max 50 (Z.min 100 p)
  /\ interval_ms m' = Z.max 1000 i
  /\ hibernate_threshold m' = Z.max 1 (Z.min 20 h)
  /\ power_saver_threshold m' = Z.max 5 (Z.min 50 s).
Proof.
  unfold save_and_close, save_and_close_m.
  destruct m, f. exec. cbn. intros -> -> -> -> ->.
  repeat (case_if; cbn); repeat split; reflexivity.
Qed.


(** C8, as the dialog has it.  After a [save_and_close] that ran to its
    end, the critical threshold is in 1..99, the full threshold in 50..100,
    the interval at least 1000, the hibernate threshold in 1..20 and the
    power saver threshold in 5..50.  The hibernate threshold is bounded by
    20, not by the critical threshold. *)
Theorem save_and_close_ranges m f :
  form_valid f = true ->
  let m' := fst (save_and_close m f) in
  1 <= seuil_critique m' <= 99
  /\ 50 <= seuil_plein m' <= 100
  /\ 1000 <= interval_ms m'
  /\ 1 <= hibernate_threshold m' <= 20
  /\ 5 <= power_saver_threshold m' <= 50.
Proof.
  intros V m'. unfold form_valid in V.
  destruct (crit_var f) as [c|] eqn:Hc; [|discriminate].
  destruct (full_var f) as [p|] eqn:Hp; [|discriminate].
  destruct (interval_var f) as [i|] eqn:Hi; [|discriminate].
  destruct (hiber_var f) as [h|] eqn:Hh; [|discriminate].
  destruct (ps_thresh_var f) as [s|] eqn:Hs; [|discriminate].
  destruct (save_and_close_valid m f c p i h s Hc Hp Hi Hh Hs)
    as (A & B & C & D & E).
  fold m' in A, B, C, D, E. rewrite A, B, C, D, E. lia.
Qed.

(** * Further properties of the loop *)

(** ** The alert blocks, spelled out *)

Lemma critical_trace_eq m pct secs charging yes :
  critical_trace m pct secs charging yes
  = if (pct <=? seuil_critique m) && negb charging
       && negb (deja_alerte_critique m)
    then critical_actions m pct secs yes else [].
Proof.
  destruct ((pct <=? seuil_critique m) && negb charging
            && negb (deja_alerte_critique m)) eqn:E.
  - revert E. unfold critical_trace, critical_alert, critical_actions.
    destruct m as [sc sp ims hs smin en ps ah ht epa pst cc ar dc dp h r lp lu].
    exec. cbn. intros E.
    destruct ((pct <=? sc) && negb charging); [|discriminate].
    destruct dc; [discriminate|].
    destruct en, ps, ah, epa, yes, cc;
      cbn; repeat (case_if; cbn); try reflexivity; cbn in *; congruence.
  - apply critical_trace_idle, E.
Qed.

Lemma full_trace_eq m pct secs charging :
  full_trace m pct secs charging
  = if charging && (seuil_plein m <=? pct) && negb (deja_alerte_plein m)
    then full_actions m pct secs else [].
Proof.
  destruct (charging && (seuil_plein m <=? pct)
            && negb (deja_alerte_plein m)) eqn:E.
  - revert E. unfold full_trace, full_alert, full_actions.
    destruct m as [sc sp ims hs smin en ps ah ht epa pst cc ar dc dp h r lp lu].
    exec. cbn. intros E.
    destruct (charging && (sp <=? pct)); [|discriminate].
    destruct dp; [discriminate|].
    destruct en, ps; cbn; reflexivity.
  - apply full_trace_idle, E.
Qed.


(** The trace of a tick, whole. *)
Lemma tick_trace m tk :
  snd (update_interface m tk)
  = if _running m then
      match sensors_battery tk with
      | Raises => [Log ErreurUpdate; After (interval_ms m)]
      | Returns None =>
          [DrawGauge 0 false; LabelState AucuneBatterie; LabelTime None;
           After (interval_ms m)]
      | Returns (Some b) =>
          let pct := Py.round (percent b) in
          let charging := Py.bool_of (power_plugged b) in
          if draws (Py.append (history m) pct) then
            display m pct (secsleft b) charging (time_rate tk)
            ++ (if (pct <=? seuil_critique m) && negb charging
                   && negb (deja_alerte_critique m)
                then critical_actions m pct (secsleft b) (askyesno tk)
                else [])
            ++ (if charging && (seuil_plein m <=? pct)
                   && negb (deja_alerte_plein m)
                then full_actions m pct (secsleft b) else [])
            ++ [After (interval_ms m)]
          else
            [DrawGauge pct charging; Log ErreurUpdate; After (interval_ms m)]
      end
    else [].
Proof.
  destruct (_running m) eqn:R.
  - destruct (sensors_battery tk) as [[b|]|] eqn:S.
    + cbv zeta.
      destruct (draws (Py.append (history m) (Py.round (percent b)))) eqn:D.
      * rewrite (update_interface_battery m tk b R S D). cbn [snd].
        rewrite critical_trace_eq, full_trace_eq. reflexivity.
      * rewrite (update_interface_aborted m tk b R S D). reflexivity.
    + rewrite (update_interface_no_battery m tk R S). reflexivity.
    + rewrite (update_interface_raises m tk R S). reflexivity.
  - rewrite (update_interface_stopped m tk R). reflexivity.
Qed.

Lemma count_app p t1 t2 : count p (t1 ++ t2) = (count p t1 + count p t2)%nat.
Proof. unfold count. rewrite filter_app, length_app. reflexivity. Qed.

Lemma count_zero p t : fires p t = false -> count p t = 0%nat.
Proof.
  unfold fires, count. induction t as [|a t IH]; [reflexivity|].
  cbn. destruct (p a); [discriminate|]. exact IH.
Qed.

Lemma display_count p m pct secs charging now :
  (forall a b, p (DrawGauge a b) = false) ->
  (forall l, p (DrawHistory l) = false) ->
  (forall s, p (LabelState s) = false) ->
  (forall t, p (LabelTime t) = false) ->
  (forall r, p (LabelRate r) = false) ->
  p LabelLast = false ->
  count p (display m pct secs charging now) = 0%nat.
Proof.
  intros. apply count_zero, display_quiet; assumption.
Qed.

Ltac alert_lists :=
  unfold critical_actions, full_actions; repeat case_if;
  cbn; try reflexivity.

(** ** The timer *)

(** X1.  A tick of a running monitor re-arms the timer once, with the
    interval of the monitor, as its last call: also when the sensor call
    raised and when there is no battery.  A tick of a stopped monitor
    re-arms nothing and calls nothing. *)
Theorem tick_rearms_timer m tk :
  (_running m = true ->
   count is_after (snd (update_interface m tk)) = 1%nat
   /\ last (snd (update_interface m tk)) LabelLast = After (interval_ms m))
  /\ (_running m = false -> update_interface m tk = (m, [])).
Proof.
  split; [|apply update_interface_stopped].
  intros R. rewrite tick_trace, R.
  destruct (sensors_battery tk) as [[b|]|]; [|split; reflexivity..].
  cbv zeta.
  destruct (draws (Py.append (history m) (Py.round (percent b))));
    [|split; reflexivity].
  split.
  - rewrite !count_app, display_count by reflexivity. alert_lists.
  - rewrite !app_assoc. apply last_last.
Qed.

(** X2.  After [quit_app] the loop is dead: whatever ticks follow, the
    monitor stays as [quit_app] left it and no call is made, no alert, no
    drawing, no re-arming. *)
Theorem quit_stops_loop m tks :
  run (quit_app m) tks = (quit_app m, map (fun _ => []) tks).
Proof.
  induction tks as [|tk rest IH]; [reflexivity|].
  rewrite run_cons.
  rewrite (update_interface_stopped (quit_app m) tk) by (destruct m; reflexivity).
  cbn [fst snd map]. rewrite IH. reflexivity.
Qed.

(** ** What an alert does and does not *)

(** X3.  A tick hibernates the machine exactly when all of this holds: the
    monitor runs on Windows, the critical alert fires on this tick, auto
    hibernation is on, the percent is at most the hibernate threshold, and
    the user answered yes to the question of this tick. *)
Theorem hibernate_needs_consent m tk :
  fires is_hibernate (snd (update_interface m tk)) = true
  <-> (IS_WINDOWS = true
       /\ fires is_critical_alert (snd (update_interface m tk)) = true
       /\ auto_hibernate m = true
       /\ askyesno tk = true
       /\ exists pct charging,
           reading_of tk = Some (pct, charging)
           /\ pct <= hibernate_threshold m).
Proof.
  rewrite tick_fires_critical, tick_trace.
  unfold completes, critical_condition, reading_of.
  destruct (_running m); cbn [andb];
    [|split; [discriminate|intros (_ & H & _); discriminate]].
  destruct (sensors_battery tk) as [[b|]|];
    [|split; [discriminate|intros (_ & H & _); discriminate]..].
  cbv zeta.
  set (pct := Py.round (percent b)). set (ch := Py.bool_of (power_plugged b)).
  destruct (draws (Py.append (history m) pct)); cbn [andb];
    [|split; [discriminate|intros (_ & H & _); discriminate]].
  rewrite !fires_app.
  rewrite display_quiet by reflexivity.
  replace (fires is_hibernate
             (if ch && (seuil_plein m <=? pct) && negb (deja_alerte_plein m)
              then full_actions m pct (secsleft b) else []))
    with false by alert_lists.
  cbn [orb fires existsb is_hibernate]. rewrite !orb_false_r.
  destruct ((pct <=? seuil_critique m) && negb ch) eqn:C; cbn [andb];
    [|split; [discriminate|intros (_ & H & _); discriminate]].
  destruct (deja_alerte_critique m); cbn [negb andb];
    [split; [discriminate|intros (_ & H & _); discriminate]|].
  unfold critical_actions, fires. rewrite !existsb_app.
  destruct (Z.leb_spec pct (hibernate_threshold m)) as [L|L];
    destruct (auto_hibernate m), IS_WINDOWS, (askyesno tk);
    repeat case_if; cbn; split;
    try discriminate; try (intros (? & ? & ? & ? & ?); discriminate);
    try (intros (_ & _ & _ & _ & p & c & E & L'); injection E as <- <-; lia);
    intros _; repeat split; eauto.
Qed.


(** X4.  Off Windows, no tick switches the power scheme, asks about
    hibernation or hibernates, and no save touches the autorun entry. *)
Theorem no_windows_actions_elsewhere m tk f :
  IS_WINDOWS = false ->
  fires is_windows_action (snd (update_interface m tk)) = false
  /\ fires is_windows_action (snd (save_and_close m f)) = false.
Proof.
  intros W. split.
  - rewrite tick_trace.
    destruct (_running m); [|reflexivity].
    destruct (sensors_battery tk) as [[b|]|]; [|reflexivity..].
    cbv zeta.
    destruct (draws (Py.append (history m) (Py.round (percent b))));
      [|reflexivity].
    rewrite !fires_app, display_quiet by reflexivity.
    unfold critical_actions, full_actions.
    rewrite W, !andb_false_r. cbn [andb]. repeat case_if; reflexivity.
  - unfold save_and_close, save_and_close_m.
    destruct m, f. exec. cbn. rewrite W, !andb_false_r.
    repeat (first [case_call | case_if]; cbn); reflexivity.
Qed.

(** X5.  A tick notifies once if an alert fires on it and notifications
    are on, and not otherwise; it beeps twice if an alert fires on it and
    the sound is on (once before the alert window, once with it), and not
    otherwise.  With both switches off the loop is mute. *)
Theorem alert_notifies_once_beeps_twice m tk :
  let t := snd (update_interface m tk) in
  let alert := fires is_critical_alert t || fires is_full_alert t in
  count is_notify t = (if enable_notifications m && alert then 1 else 0)%nat
  /\ count is_beep t = (if play_sound m && alert then 2 else 0)%nat.
Proof.
  cbv zeta. rewrite tick_fires_critical, tick_fires_full, tick_trace.
  unfold completes, critical_condition, full_condition, reading_of.
  destruct (_running m); cbn [andb orb];
    [|rewrite !andb_false_r; split; reflexivity].
  destruct (sensors_battery tk) as [[b|]|];
    [|rewrite !andb_false_r; split; reflexivity..].
  cbv zeta.
  destruct (draws (Py.append (history m) (Py.round (percent b))));
    cbn [andb orb]; [|rewrite !andb_false_r; split; reflexivity].
  rewrite !count_app, !display_count by reflexivity.
  destruct (Py.bool_of (power_plugged b)),
    (Py.round (percent b) <=? seuil_critique m),
    (seuil_plein m <=? Py.round (percent b)),
    (deja_alerte_critique m), (deja_alerte_plein m),
    (enable_notifications m) eqn:N, (play_sound m) eqn:P;
    cbn [andb orb negb]; split;
    unfold critical_actions, full_actions; rewrite ?N, ?P;
    repeat case_if; reflexivity.
Qed.

(** X6.  The loop never reads the power saver threshold: a tick does the
    same calls and leaves the same monitor whatever that threshold is.  The
    power saver is switched with the critical alert, at the critical
    threshold: a tick switches it exactly when the critical alert fires on
    it, the automatic switch is on and the monitor runs on Windows. *)
Theorem power_saver_threshold_unused m tk v :
  update_interface (set_power_saver_threshold v m) tk
  = (set_power_saver_threshold v (fst (update_interface m tk)),
     snd (update_interface m tk))
  /\ fires is_set_power_saver (snd (update_interface m tk))
     = fires is_critical_alert (snd (update_interface m tk))
       && enable_power_saver_auto m && IS_WINDOWS.
Proof.
  split.
  - apply injective_projections.
    + destruct (update_interface_cases m tk)
        as [(R & _ & E)|[(R & S & _ & E)|[(R & S & _ & E)
           |[(R & b & S & C & E)|(R & b & S & C & E)]]]]; rewrite E.
      * rewrite update_interface_stopped by (destruct m; exact R).
        reflexivity.
      * rewrite update_interface_raises; [|destruct m; exact R|exact S].
        reflexivity.
      * rewrite update_interface_no_battery; [|destruct m; exact R|exact S].
        destruct m; reflexivity.
      * unfold completes in C. rewrite R, (reading_of_battery tk b S) in C.
        rewrite (update_interface_aborted _ tk b);
          [|destruct m; exact R|exact S|destruct m; exact C].
        destruct m; reflexivity.
      * unfold completes in C. rewrite R, (reading_of_battery tk b S) in C.
        rewrite (update_interface_battery _ tk b);
          [|destruct m; exact R|exact S|destruct m; exact C].
        unfold critical_condition, full_condition.
        rewrite (reading_of_battery tk b S). destruct m; reflexivity.
    + rewrite !tick_trace. destruct m; reflexivity.
  - rewrite tick_fires_critical, tick_trace.
    unfold completes, critical_condition, reading_of.
    destruct (_running m); cbn [andb]; [|reflexivity].
    destruct (sensors_battery tk) as [[b|]|]; [|reflexivity..].
    cbv zeta.
    destruct (draws (Py.append (history m) (Py.round (percent b))));
      cbn [andb]; [|reflexivity].
    rewrite !fires_app, display_quiet by reflexivity.
    destruct ((Py.round (percent b) <=? seuil_critique m)
              && negb (Py.bool_of (power_plugged b))
              && negb (deja_alerte_critique m));
      unfold critical_actions, full_actions, fires;
      rewrite ?existsb_app; rewrite <- ?andb_assoc; cbn [andb];
      destruct (enable_power_saver_auto m && IS_WINDOWS);
      repeat case_if; reflexivity.
Qed.

(** ** The rate and the rounding *)

Lemma round_cases (x : Q) :
  let f := Qfloor x in
  (inject_Z f <= x < inject_Z (f + 1))%Q
  /\ ((x - inject_Z f < 1 # 2)%Q /\ Py.round x = f
      \/ (x - inject_Z f > 1 # 2)%Q /\ Py.round x = f + 1
      \/ (x - inject_Z f == 1 # 2)%Q /\ Z.even (Py.round x) = true
         /\ (Py.round x = f \/ Py.round x = f + 1)).
Proof.
  cbv zeta. split; [split; [apply Qfloor_le|apply Qlt_floor]|].
  unfold Py.round.
  destruct (Qcompare (x - inject_Z (Qfloor x)) (1 # 2)) eqn:C.
  - right; right. apply Qeq_alt in C. split; [exact C|].
    destruct (Z.even (Qfloor x)) eqn:E; [auto|].
    split; [|auto]. rewrite Z.even_add, E. reflexivity.
  - left. apply Qlt_alt in C. auto.
  - right; left. apply Qgt_alt in C. auto.
Qed.

(** X8.  The percent the loop works with is an integer nearest to the
    percent of the sensor, at most one half away from it; when two
    integers are as near, it is the even one.  An integer percent is kept
    as it is, and a greater percent never gives a smaller integer. *)
Theorem round_nearest (x y : Q) :
  (x - (1 # 2) <= inject_Z (Py.round x) <= x + (1 # 2))%Q
  /\ ((inject_Z (Py.round x) - x == 1 # 2)%Q
      \/ (x - inject_Z (Py.round x) == 1 # 2)%Q ->
      Z.even (Py.round x) = true)
  /\ (forall z, Py.round (inject_Z z) = z)
  /\ ((x <= y)%Q -> Py.round x <= Py.round y).
Proof.
  split; [|split; [|split]].
  - destruct (round_cases x) as ((F1 & F2) & [(C & ->)|[(C & ->)|(C & _ & [-> | ->])]]);
      rewrite ?inject_Z_plus in *; change (inject_Z 1) with 1%Q in *;
      split; lra.
  - destruct (round_cases x) as ((F1 & F2) & [(C & E)|[(C & E)|(C & E & _)]]);
      [| |intros _; exact E];
      rewrite E, ?inject_Z_plus in *; change (inject_Z 1) with 1%Q in *;
      intros [H|H]; lra.
  - apply round_inject_Z.
  - intros L.
    destruct (round_cases x) as ((F1 & F2) & Cx).
    destruct (round_cases y) as ((G1 & G2) & Cy).
    assert (Fl : Qfloor x <= Qfloor y) by (apply Qfloor_resp_le, L).
    destruct (Z.eq_dec (Qfloor x) (Qfloor y)) as [E|NE].
    + rewrite E in Cx.
      destruct Cx as [(C & Rx)|[(C & Rx)|(C & Ev & [Rx|Rx])]];
        destruct Cy as [(D & Ry)|[(D & Ry)|(D & Ev' & [Ry|Ry])]];
        try lia; try lra.
      rewrite Rx in Ev. rewrite Ry in Ev'.
      rewrite Z.even_add, Ev' in Ev. discriminate.
    + destruct Cx as [(C & ->)|[(C & ->)|(C & _ & [-> | ->])]];
        destruct Cy as [(D & ->)|[(D & ->)|(D & _ & [-> | ->])]]; lia.
Qed.

(** X7.  On a reading that gets past [draw_history], when a reading is
    tracked, the tracked time is not zero and time has elapsed, the rate
    shown has the sign of the change of the percent: positive when the
    percent rose, negative when it fell, zero when it stayed. *)
Theorem rate_sign m tk b lp lu :
  _running m = true -> sensors_battery tk = Returns (Some b) ->
  draws (Py.append (history m) (Py.round (percent b))) = true ->
  last_percent m = Some lp -> last_update m = Some lu ->
  ~ (lu == 0)%Q -> (lu < time_rate tk)%Q ->
  exists r,
    shown_rate (snd (update_interface m tk)) = Some r
    /\ ((0 < r)%Q <-> lp < Py.round (percent b))
    /\ ((r < 0)%Q <-> Py.round (percent b) < lp)
    /\ ((r == 0)%Q <-> Py.round (percent b) = lp).
Proof.
  intros R S Dr P U NZ LT.
  exists (rate_per_hour m (Py.round (percent b)) (time_rate tk)).
  split; [apply tick_shown_rate; assumption|].
  unfold rate_per_hour. rewrite P, U.
  set (pct := Py.round (percent b)). set (now := time_rate tk) in *.
  pose proof (rate_of_elapsed lp pct lu now NZ LT) as E.
  assert (D : (0 < (now - lu) / 3600)%Q).
  { apply Qlt_shift_div_l; [reflexivity|]. lra. }
  set (d := ((now - lu) / 3600)%Q) in *.
  assert (I : (rate_of (Some lp) (Some lu) pct now * d
               == inject_Z (pct - lp))%Q).
  { rewrite E. field. lra. }
  set (r := rate_of (Some lp) (Some lu) pct now) in *.
  assert (Zp : forall z, (0 < inject_Z z)%Q <-> 0 < z).
  { intros z. rewrite (Zlt_Qlt 0 z). reflexivity. }
  assert (Zn : forall z, (inject_Z z < 0)%Q <-> z < 0).
  { intros z. rewrite (Zlt_Qlt z 0). reflexivity. }
  assert (Z0 : forall z, (inject_Z z == 0)%Q <-> z = 0).
  { intros z. rewrite <- (inject_Z_injective z 0). reflexivity. }
  repeat split; intros H.
  - apply (Z.lt_0_sub lp pct), Zp. rewrite <- I. nra.
  - apply (Z.lt_0_sub lp pct), Zp in H. rewrite <- I in H. nra.
  - apply (Z.lt_sub_0 pct lp), Zn. rewrite <- I. nra.
  - apply (Z.lt_sub_0 pct lp), Zn in H. rewrite <- I in H. nra.
  - assert (Hz : pct - lp = 0) by (apply Z0; rewrite <- I, H; ring).
    lia.
  - assert (Hz : (inject_Z (pct - lp) == 0)%Q) by (apply Z0; lia).
    rewrite <- I in Hz. nra.
Qed.


(** ** Ticks that fail, and the application as a whole *)

Lemma tick_raises m tk :
  raises tk = true ->
  fst (update_interface m tk) = m
  /\ filter is_alert (snd (update_interface m tk)) = [].
Proof.
  unfold raises. intros H.
  destruct (sensors_battery tk) as [v|] eqn:S; [discriminate|].
  destruct (_running m) eqn:R.
  - rewrite (update_interface_raises m tk R S). split; reflexivity.
  - rewrite (update_interface_stopped m tk R). split; reflexivity.
Qed.

(** X9.  A tick whose sensor call raises is as good as no tick: a run ends
    in the same monitor and fires the same alerts, in the same order, as
    the run with those ticks left out. *)
Theorem raising_ticks_skipped m tks :
  let kept := filter (fun tk => negb (raises tk)) tks in
  fst (run m tks) = fst (run m kept)
  /\ alerts_of (snd (run m tks)) = alerts_of (snd (run m kept)).
Proof.
  cbv zeta. revert m. induction tks as [|tk rest IH]; intros m.
  - split; reflexivity.
  - cbn [filter]. destruct (raises tk) eqn:H; cbn [negb].
    + destruct (tick_raises m tk H) as (E1 & E2).
      rewrite run_cons. cbn [fst snd]. rewrite E1.
      unfold alerts_of in *. cbn [List.concat]. rewrite filter_app, E2.
      apply IH.
    + rewrite !run_cons. cbn [fst snd].
      unfold alerts_of in *. cbn [List.concat]. rewrite !filter_app.
      destruct (IH (fst (update_interface m tk))) as (A & B).
      rewrite A, B. split; reflexivity.
Qed.

(** A tick leaves every setting as it was. *)
Lemma tick_settings m tk :
  let m' := fst (update_interface m tk) in
  seuil_critique m' = seuil_critique m
  /\ seuil_plein m' = seuil_plein m
  /\ interval_ms m' = interval_ms m
  /\ history_size m' = history_size m
  /\ hibernate_threshold m' = hibernate_threshold m
  /\ power_saver_threshold m' = power_saver_threshold m.
Proof.
  destruct (update_interface_cases m tk)
    as [(_ & _ & E)|[(_ & _ & _ & E)|[(_ & _ & _ & E)
       |[(_ & b & _ & _ & E)|(_ & b & _ & _ & E)]]]];
    rewrite E; destruct m; cbn; repeat split; reflexivity.
Qed.

Lemma tick_paired m tk : paired m -> paired (fst (update_interface m tk)).
Proof.
  unfold paired.
  destruct (update_interface_cases m tk)
    as [(_ & _ & E)|[(_ & _ & _ & E)|[(_ & _ & _ & E)
       |[(_ & b & _ & _ & E)|(_ & b & _ & _ & E)]]]];
    rewrite E; destruct m; cbn; try tauto.
  intros _. split; discriminate.
Qed.

Lemma run_ops_cons m o rest :
  run_ops m (o :: rest)
  = (fst (run_ops (fst (apply_op m o)) rest),
     snd (apply_op m o) :: snd (run_ops (fst (apply_op m o)) rest)).
Proof.
  cbn [run_ops]. destruct (apply_op m o) as [m1 t].
  cbn [fst snd]. destruct (run_ops m1 rest). reflexivity.
Qed.

(** What every operation keeps: the bound of the history, its capacity,
    the recorded size and the pairing of the trackers. *)
Lemma apply_op_keeps m o :
  let m' := fst (apply_op m o) in
  (bounded (history m) -> bounded (history m'))
  /\ Py.maxlen (history m') = Py.maxlen (history m)
  /\ history_size m' = history_size m
  /\ (paired m -> paired m').
Proof.
  destruct o as [tk|f|]; cbn [apply_op fst].
  - destruct (tick_frame m tk) as (_ & _ & _ & _ & Mx).
    destruct (tick_settings m tk) as (_ & _ & _ & Hs & _).
    cbv zeta in *. repeat split; auto using tick_bounded, tick_paired.
    + apply (proj1 (tick_paired m tk H)).
    + apply (proj2 (tick_paired m tk H)).
  - destruct (save_and_close_frame m f) as (_ & _ & H & P & U & _ & Hs).
    cbv zeta in *. unfold paired. rewrite H, P, U. tauto.
  - destruct m. cbn. unfold paired. cbn. tauto.
Qed.

(** X10.  Whatever ticks, saves and quits follow the constructor, in any
    order, the history stays within its capacity, the capacity stays the
    one the monitor was built with (no save changes it), and the two
    trackers stay set together or unset together. *)
Theorem application_invariants c m ops :
  new_monitor c = Some m ->
  let m' := fst (run_ops m ops) in
  bounded (history m')
  /\ Py.maxlen (history m') = Z.to_nat (cfg_history_size c)
  /\ history_size m' = cfg_history_size c
  /\ paired m'.
Proof.
  intros N. cbv zeta.
  assert (I : bounded (history m)
              /\ Py.maxlen (history m) = Z.to_nat (cfg_history_size c)
              /\ history_size m = cfg_history_size c /\ paired m).
  { destruct (new_monitor_ready c m N) as (_ & _ & _ & P & U & _ & B).
    unfold new_monitor in N.
    destruct ((cfg_history_size c <? 0) || (sys_maxsize <? cfg_history_size c));
      [discriminate|].
    injection N as <-. unfold paired. rewrite P, U.
    repeat split; auto. }
  clear N. revert m I. induction ops as [|o rest IH]; intros m I; [exact I|].
  rewrite run_ops_cons. cbn [fst]. apply IH.
  destruct I as (B & Mx & Hs & P).
  destruct (apply_op_keeps m o) as (B' & Mx' & Hs' & P'). cbv zeta in *.
  repeat split; try congruence; auto; apply P'; exact P.
Qed.

Lemma save_and_close_in_range m f :
  in_range m -> in_range (fst (save_and_close m f)).
Proof.
  unfold save_and_close, save_and_close_m, in_range.
  destruct m, f. exec. cbn.
  repeat (first [case_call | case_if]; cbn); lia.
Qed.

(** X11.  Once the settings are within the ranges of [save_and_close],
    they stay within them whatever follows: ticks, quits and saves, also
    the saves that stop half way on an entry that does not read. *)
Theorem ranges_kept m ops :
  in_range m -> in_range (fst (run_ops m ops)).
Proof.
  revert m. induction ops as [|o rest IH]; intros m I; [exact I|].
  rewrite run_ops_cons. cbn [fst]. apply IH.
  destruct o as [tk|f|]; cbn [apply_op fst].
  - destruct (tick_settings m tk) as (A & B & C & _ & D & E).
    cbv zeta in *. unfold in_range in *. rewrite A, B, C, D, E. exact I.
  - apply save_and_close_in_range, I.
  - destruct m. exact I.
Qed.


(** * Formatting and drawing *)

(** X12.  For a number of seconds that is not negative and is not one of
    the two markers, [format_time] shows the time rounded down to the
    minute: hours and minutes from one hour on, minutes alone below, the
    minutes always under 60.  For a negative number it shows one of the
    two texts for a marker, never a number. *)
Theorem format_time_minutes (POWER_TIME_UNLIMITED POWER_TIME_UNKNOWN s : Z) :
  (0 <= s -> s <> POWER_TIME_UNLIMITED -> s <> POWER_TIME_UNKNOWN ->
   exists h m,
     0 <= h /\ 0 <= m < 60
     /\ 3600 * h + 60 * m <= s < 3600 * h + 60 * m + 60
     /\ format_time POWER_TIME_UNLIMITED POWER_TIME_UNKNOWN (Some s)
        = if 0 <? h
          then (str_of_int h ++ "h " ++ str_of_int m ++ "m")%string
          else (str_of_int m ++ " min")%string)
  /\ (s < 0 ->
      format_time POWER_TIME_UNLIMITED POWER_TIME_UNKNOWN (Some s) = "illimité"%string
      \/ format_time POWER_TIME_UNLIMITED POWER_TIME_UNKNOWN (Some s) = "calcul..."%string).
Proof.
  split.
  - intros P U K. exists (s / 3600), ((s mod 3600) / 60).
    pose proof (Z.div_mod s 3600 ltac:(lia)) as D.
    pose proof (Z.mod_pos_bound s 3600 ltac:(lia)) as B.
    pose proof (Z.div_mod (s mod 3600) 60 ltac:(lia)) as D'.
    pose proof (Z.mod_pos_bound (s mod 3600) 60 ltac:(lia)) as B'.
    assert (H0 : 0 <= s / 3600) by (apply Z.div_pos; lia).
    assert (M0 : 0 <= (s mod 3600) / 60) by (apply Z.div_pos; lia).
    assert (M1 : (s mod 3600) / 60 < 60)
      by (apply Z.div_lt_upper_bound; lia).
    repeat split; try lia.
    unfold format_time.
    destruct (Z.eqb_spec s POWER_TIME_UNLIMITED); [contradiction|].
    destruct (Z.eqb_spec s POWER_TIME_UNKNOWN); [contradiction|].
    destruct (Z.ltb_spec s 0); [lia|]. reflexivity.
  - intros N. unfold format_time.
    destruct (s =? POWER_TIME_UNLIMITED); [left; reflexivity|].
    right. destruct (Z.ltb_spec s 0); [|lia].
    rewrite orb_true_r. reflexivity.
Qed.









(** * The settings dialog, further *)

(** X15.  Opening the dialog and saving without touching anything changes
    nothing, when the settings are within the ranges of [save_and_close]:
    the monitor is the same, the autorun entry is not touched, and the
    configuration is written. *)
Theorem save_untouched_dialog m ok :
  in_range m ->
  save_and_close m (open_settings m ok)
  = (m, [SaveConfig; ShowInfo; WinDestroy]).
Proof.
  unfold in_range, save_and_close, save_and_close_m, open_settings.
  destruct m as [sc sp ims hs smin en ps ah ht epa pst cc ar dc dp h r lp lu].
  cbn. intros (A & B & C & D & E). exec. cbn.
  rewrite Bool.eqb_reflx. cbn.
  replace (Z.max 1 (Z.min 99 sc)) with sc by lia.
  replace (Z.max 50 (Z.min 100 sp)) with sp by lia.
  replace (Z.max 1000 ims) with ims by lia.
  replace (Z.max 1 (Z.min 20 ht)) with ht by lia.
  replace (Z.max 5 (Z.min 50 pst)) with pst by lia.
  reflexivity.
Qed.

(** X16.  The clamps of [save_and_close] never bite on what the four
    scales of the dialog can hold: every position of a scale is stored as
    it is, the two thresholds even when the interval does not read.  Only
    the interval, a free entry, is raised to 1000 when it is below. *)
Theorem scale_values_stored m f :
  on_scales f ->
  let m' := fst (save_and_close m f) in
  crit_var f = Returns (seuil_critique m')
  /\ full_var f = Returns (seuil_plein m')
  /\ (forall i,
         interval_var f = Returns i ->
         hiber_var f = Returns (hibernate_threshold m')
         /\ ps_thresh_var f = Returns (power_saver_threshold m')
         /\ interval_ms m' = Z.max 1000 i).
Proof.
  intros (c & p & h & s & Hc & Rc & Hp & Rp & Hh & Rh & Hs & Rs) m'.
  destruct (save_and_close_thresholds m f c p Hc Hp) as (A & B).
  fold m' in A, B. rewrite A, B, Hc, Hp.
  split; [f_equal; lia|]. split; [f_equal; lia|].
  intros i Hi.
  destruct (save_and_close_valid m f c p i h s Hc Hp Hi Hh Hs)
    as (_ & _ & C & D & E).
  fold m' in C, D, E. rewrite C, D, E, Hh, Hs.
  repeat split; f_equal; lia.
Qed.

(** The monitor a save leaves: the assignments up to the first entry
    that does not read. *)
Lemma save_and_close_state m f :
  fst (save_and_close m f)
  = match crit_var f with
    | Raises => m
    | Returns c =>
        let m1 := set_seuil_critique (Z.max 1 (Z.min 99 c)) m in
        match full_var f with
        | Raises => m1
        | Returns p =>
            let m2 := set_seuil_plein (Z.max 50 (Z.min 100 p)) m1 in
            match interval_var f with
            | Raises => m2
            | Returns i =>
                let m3 := set_auto_hibernate (auto_h_var f)
                            (set_interval_ms (Z.max 1000 i) m2) in
                match hiber_var f with
                | Raises => m3
                | Returns h =>
                    let m4 := set_enable_power_saver_auto (ps_var f)
                                (set_hibernate_threshold
                                   (Z.max 1 (Z.min 20 h)) m3) in
                    match ps_thresh_var f with
                    | Raises => m4
                    | Returns s =>
                        set_autorun_attr (autorun_var f)
                          (set_custom_command (cmd_var f)
                             (set_start_minimized (start_min_var f)
                                (set_play_sound (sound_var f)
                                   (set_enable_notifications (notif_var f)
                                      (set_power_saver_threshold
                                         (Z.max 5 (Z.min 50 s)) m4)))))
                    end
                end
            end
        end
    end.
Proof.
  unfold save_and_close, save_and_close_m.
  destruct m, f. exec. cbn.
  repeat (first [case_call | case_if]; cbn); reflexivity.
Qed.

(** The calls a save makes. *)
Lemma save_and_close_trace m f :
  snd (save_and_close m f)
  = if form_valid f then
      (if negb (Bool.eqb (autorun_var f) (autorun m)) && IS_WINDOWS
       then SetAutorun (autorun_var f)
            :: (if negb (set_autorun_ok f) then [ShowWarning] else [])
       else [])
      ++ [SaveConfig; ShowInfo; WinDestroy]
    else [ShowError].
Proof.
  unfold form_valid, save_and_close, save_and_close_m.
  destruct m, f. exec. cbn.
  repeat (first [case_call | case_if]; cbn); reflexivity.
Qed.

(** X17.  Saving the same dialog twice leaves the monitor the first save
    left, whether or not the save runs to its end, and the second save
    does not touch the autorun entry. *)
Theorem save_twice m f :
  let m1 := fst (save_and_close m f) in
  fst (save_and_close m1 f) = m1
  /\ fires is_set_autorun (snd (save_and_close m1 f)) = false.
Proof.
  cbv zeta. rewrite save_and_close_trace, !save_and_close_state.
  unfold form_valid.
  destruct m as [sc sp ims hs smin en ps ah ht epa pst cc ar dc dp h r lp lu].
  destruct f as [[c|] [p|] [i|] fah [hb|] fps [s|] fn fs fm fc far fok];
    cbn; rewrite ?Bool.eqb_reflx; cbn; (split; [|reflexivity]);
    cbv [set_seuil_critique set_seuil_plein set_interval_ms
         set_auto_hibernate set_hibernate_threshold
         set_enable_power_saver_auto set_power_saver_threshold
         set_enable_notifications set_play_sound set_start_minimized
         set_custom_command set_autorun_attr
         seuil_critique seuil_plein interval_ms history_size
         start_minimized enable_notifications play_sound auto_hibernate
         hibernate_threshold enable_power_saver_auto power_saver_threshold
         custom_command autorun deja_alerte_critique deja_alerte_plein
         history _running last_percent last_update];
    f_equal; lia.
Qed.

(** X18.  A save writes the configuration and closes the dialog exactly
    when every number of the dialog reads.  When one does not, the only
    call is the error box: nothing is written, the dialog stays open; but
    the settings read before the bad entry are in force already, so a bad
    interval leaves the two thresholds changed in the monitor and not on
    disk, and a bad critical threshold leaves the monitor as it was. *)
Theorem save_commits_when_valid m f :
  (form_valid f = true ->
   exists pre,
     snd (save_and_close m f) = pre ++ [SaveConfig; ShowInfo; WinDestroy]
     /\ (pre = [] \/ pre = [SetAutorun (autorun_var f)]
         \/ pre = [SetAutorun (autorun_var f); ShowWarning]))
  /\ (form_valid f = false -> snd (save_and_close m f) = [ShowError])
  /\ (crit_var f = Raises -> fst (save_and_close m f) = m)
  /\ (forall c p,
         crit_var f = Returns c -> full_var f = Returns p ->
         interval_var f = Raises ->
         save_and_close m f
         = (set_seuil_plein (Z.max 50 (Z.min 100 p))
              (set_seuil_critique (Z.max 1 (Z.min 99 c)) m),
            [ShowError])).
Proof.
  split; [|split; [|split]].
  - intros V. rewrite save_and_close_trace, V.
    eexists. split; [reflexivity|].
    destruct (negb (Bool.eqb (autorun_var f) (autorun m)) && IS_WINDOWS);
      [|auto].
    destruct (negb (set_autorun_ok f)); auto.
  - intros V. rewrite save_and_close_trace, V. reflexivity.
  - intros C. rewrite save_and_close_state, C. reflexivity.
  - intros c p C P I. apply injective_projections.
    + rewrite save_and_close_state, C, P, I. reflexivity.
    + rewrite save_and_close_trace. unfold form_valid.
      rewrite C, P, I. reflexivity.
Qed.


(** * The configuration file *)

Lemma dict_get_app o1 o2 key default :
  dict_get (o1 ++ o2) key default = dict_get o1 key (dict_get o2 key default).
Proof.
  induction o1 as [|[k v] o1 IH]; [reflexivity|].
  cbn. destruct (String.eqb k key); [reflexivity|exact IH].
Qed.

Lemma dict_get_twice o key default :
  dict_get o key (dict_get o key default) = dict_get o key default.
Proof.
  induction o as [|[k v] o IH]; [reflexivity|].
  cbn. destruct (String.eqb k key); [reflexivity|exact IH].
Qed.

Lemma dict_get_over_defaults o key :
  dict_get (o ++ DEFAULT_CONFIG_items) key
    (dict_get DEFAULT_CONFIG_items key JNull)
  = dict_get o key (dict_get DEFAULT_CONFIG_items key JNull).
Proof. rewrite dict_get_app, dict_get_twice. reflexivity. Qed.

Ltac next_setting :=
  rewrite ?dict_get_over_defaults; cbn [call_bind];
  try match goal with
      | |- context [call_bind ?c _] => destruct c; [|reflexivity]
      end.

(** X19.  The settings survive a restart: what [save_config] writes,
    [load_config] hands back as it is without writing, and [__init__]
    reads from it the thirteen settings the monitor had, for a monitor
    whose history size is not negative.  The restarted monitor starts with
    both latches down, an empty history and nothing tracked.  This is for
    a history size up to [sys.maxsize], as every monitor the constructor
    built has; above it [deque] refuses the size and [__init__] raises. *)
Theorem settings_survive_restart
    (int_of_string : string -> option Z) (repr : json -> string)
    (m : monitor) (f : file) (w : bool) :
  0 <= history_size m ->
  let f' := save_config m f true in
  load_config f' w = (JObj (to_save m), f')
  /\ read_settings int_of_string repr (JObj (to_save m))
     = Returns (settings_of m)
  /\ (history_size m <= sys_maxsize ->
      init int_of_string repr (fst (load_config f' w))
      = Some (init_attributes (settings_of m)))
  /\ (sys_maxsize < history_size m ->
      init int_of_string repr (fst (load_config f' w)) = None)
  /\ settings_of (init_attributes (settings_of m)) = settings_of m.
Proof.
  intros H f'. subst f'. unfold save_config, load_config. cbn [fst].
  split; [reflexivity|].
  assert (R : read_settings int_of_string repr (JObj (to_save m))
              = Returns (settings_of m)) by reflexivity.
  split; [exact R|].
  unfold init. rewrite R. unfold new_monitor.
  cbn [settings_of cfg_history_size].
  destruct (Z.ltb_spec (history_size m) 0); [lia|].
  destruct (Z.ltb_spec sys_maxsize (history_size m)); cbn [orb];
    (split; [intros; try lia; reflexivity|]);
    (split; [intros; try lia; reflexivity|]);
    destruct m; reflexivity.
Qed.

(** X20.  A key the file lacks takes its default: [__init__] reads the
    same settings from a dict as from that dict completed by
    [DEFAULT_CONFIG], and from an empty dict it reads [DEFAULT_CONFIG]
    itself and builds the default monitor. *)
Theorem missing_keys_take_defaults
    (int_of_string : string -> option Z) (repr : json -> string)
    (o : list (string * json)) :
  read_settings int_of_string repr (JObj (o ++ DEFAULT_CONFIG_items))
  = read_settings int_of_string repr (JObj o)
  /\ read_settings int_of_string repr (JObj []) = Returns DEFAULT_CONFIG
  /\ init int_of_string repr (JObj []) = Some default_monitor.
Proof.
  split; [|split; reflexivity].
  unfold read_settings, get_int, get_bool, get_str, config_get.
  do 14 next_setting. reflexivity.
Qed.

(** X21.  [load_config] always hands back a value.  A file that is absent
    or does not parse gives the defaults and, the write going through, is
    replaced by them; a file that parses is handed back as it is and left
    alone.  Loading again gives the same value; and what the fallback
    gives builds the default monitor. *)
Theorem load_config_fallback
    (int_of_string : string -> option Z) (repr : json -> string)
    (f : file) (w w' : bool) :
  (forall cfg, f = Some (Returns cfg) -> load_config f w = (cfg, f))
  /\ (f = None \/ f = Some Raises ->
      fst (load_config f w) = JObj DEFAULT_CONFIG_items
      /\ snd (load_config f true) = Some (Returns (JObj DEFAULT_CONFIG_items))
      /\ snd (load_config f false) = f
      /\ init int_of_string repr (fst (load_config f w))
         = Some default_monitor)
  /\ fst (load_config (snd (load_config f w)) w') = fst (load_config f w).
Proof.
  split; [intros cfg ->; reflexivity|]. split.
  - intros [-> | ->]; repeat split; reflexivity.
  - destruct f as [[cfg|]|], w; reflexivity.
Qed.

(** X22.  With the Tk set-up taken to return, [__init__] raises before
    its first tick exactly in these cases: the loaded value is not a dict;
    or one of the six keys read with [int], taken from the dict or else
    from the defaults, holds what [int] refuses; or the history size read
    is negative or above [sys.maxsize], which [deque] refuses.  No boolean
    key and no command can make it raise. *)
Theorem init_raises_when
    (int_of_string : string -> option Z) (repr : json -> string)
    (cfg : json) :
  init int_of_string repr cfg = None
  <-> ((forall o, cfg <> JObj o)
       \/ exists o,
           cfg = JObj o
           /\ ((exists k,
                   In k int_keys
                   /\ py_int int_of_string
                        (dict_get o k (dict_get DEFAULT_CONFIG_items k JNull))
                      = Raises)
               \/ exists n,
                   py_int int_of_string
                     (dict_get o "history_size"
                        (dict_get DEFAULT_CONFIG_items "history_size" JNull))
                   = Returns n
                   /\ (n < 0 \/ sys_maxsize < n))).
Proof.
  destruct cfg as [| | | | | |l|o];
    try (split; [intros _; left; intros o; discriminate|reflexivity]).
  unfold init, read_settings, get_int, get_bool, get_str, config_get.
  cbn [call_bind].
  destruct (py_int int_of_string
              (dict_get o "seuil_critique"
                 (dict_get DEFAULT_CONFIG_items "seuil_critique" JNull)))
    as [a1|] eqn:E1;
  destruct (py_int int_of_string
              (dict_get o "seuil_plein"
                 (dict_get DEFAULT_CONFIG_items "seuil_plein" JNull)))
    as [a2|] eqn:E2;
  destruct (py_int int_of_string
              (dict_get o "interval_ms"
                 (dict_get DEFAULT_CONFIG_items "interval_ms" JNull)))
    as [a3|] eqn:E3;
  destruct (py_int int_of_string
              (dict_get o "history_size"
                 (dict_get DEFAULT_CONFIG_items "history_size" JNull)))
    as [a4|] eqn:E4;
  destruct (py_int int_of_string
              (dict_get o "hibernate_threshold"
                 (dict_get DEFAULT_CONFIG_items "hibernate_threshold" JNull)))
    as [a5|] eqn:E5;
  destruct (py_int int_of_string
              (dict_get o "power_saver_threshold"
                 (dict_get DEFAULT_CONFIG_items "power_saver_threshold"
                    JNull)))
    as [a6|] eqn:E6;
  cbn [call_bind];
  try (split; [intros _; right; exists o; split; [reflexivity|]; left;
               match goal with
               | H : py_int _ (dict_get _ ?k _) = Raises |- _ =>
                   exists k; split; [cbn; tauto|exact H]
               end
              |reflexivity]).
  unfold new_monitor. cbn [cfg_history_size].
  destruct (Z.ltb_spec a4 0) as [L|L];
    destruct (Z.ltb_spec sys_maxsize a4) as [U|U]; cbn [orb]; split;
    try reflexivity; try discriminate;
    try (intros _; right; exists o; split; [reflexivity|]; right;
         exists a4; split; [exact E4|lia]).
  intros [H|(o' & Eo & [(k & Hk & Hr)|(n & Hn & Ln)])].
  - exfalso. apply (H o). reflexivity.
  - injection Eo as <-.
    cbn in Hk. destruct Hk as [<-|[<-|[<-|[<-|[<-|[<-|[]]]]]]]; congruence.
  - injection Eo as <-. rewrite E4 in Hn. injection Hn as <-. lia.
Qed.


(** * The autorun entry *)



End Platform.

(** * The properties at concrete inputs *)

Lemma warm_warmed_default : warm (warmed true default_monitor).
Proof. unfold warm, bounded. vm_compute. repeat split; lia. Qed.

Lemma warm_warmed_latched : warm (warmed true latched_monitor).
Proof. unfold warm, bounded. vm_compute. repeat split; lia. Qed.

Lemma cold_default : cold default_monitor.
Proof. unfold cold. vm_compute. split; [reflexivity|lia]. Qed.

Lemma room_default : (2 <= Py.maxlen (history default_monitor))%nat.
Proof. vm_compute. lia. Qed.

Lemma critical_alert_edge_triggered_witness :
  map (fires is_critical_alert)
    (snd (run true (warmed true latched_monitor)
            [sample 10 false 1; sample 40 false 2; sample 10 false 3]))
  = rising_edges true [true; false; true]
  /\ map (fires is_critical_alert)
       (snd (run true default_monitor
               [sample 10 false 1; sample 10 false 2]))
     = [false; true]
  /\ map (fires is_critical_alert)
       (snd (run true default_monitor
               [sample 20 false 1; sample 16 false 2; sample 14 false 3;
                sample 12 false 4; sample 16 false 5]))
     = [false; false; true; false; false].
Proof.
  destruct (critical_alert_edge_triggered true) as (A & B & C).
  split; [|split].
  - apply (A (warmed true latched_monitor)
             [sample 10 false 1; sample 40 false 2; sample 10 false 3]
             eq_refl warm_warmed_latched eq_refl).
  - apply (B default_monitor (sample 10 false 1) (sample 10 false 2)
             eq_refl cold_default room_default eq_refl eq_refl eq_refl
             eq_refl eq_refl).
  - apply (C default_monitor eq_refl cold_default room_default eq_refl
             eq_refl).
Defined.

Lemma full_alert_edge_triggered_witness :
  deja_alerte_plein
    (fst (run true (warmed true default_monitor)
            [sample 96 true 1; sample 96 false 2]))
  = last [true; false] false
  /\ map (fires is_full_alert)
       (snd (run true default_monitor
               [sample 96 true 1; sample 96 true 2]))
     = [false; true]
  /\ map (fires is_full_alert)
       (snd (run true default_monitor
               [sample 90 true 1; sample 96 true 2; sample 97 true 3;
                sample 96 true 4]))
     = [false; true; false; false].
Proof.
  destruct (full_alert_edge_triggered true) as (A & B & C).
  split; [|split].
  - apply (A (warmed true default_monitor)
             [sample 96 true 1; sample 96 false 2]
             eq_refl warm_warmed_default eq_refl).
  - apply (B default_monitor (sample 96 true 1) (sample 96 true 2)
             eq_refl cold_default room_default eq_refl eq_refl eq_refl
             eq_refl eq_refl).
  - apply (C default_monitor eq_refl cold_default room_default eq_refl
             eq_refl).
Defined.

Lemma history_ring_buffer_witness :
  bounded (history small_monitor)
  /\ Py.items
       (history
          (fst (run true small_monitor
                  ([sample 10 false 1; no_battery 2]
                   ++ [sample 20 false 3; sample 30 false 4;
                       sample 40 false 5]))))
     = [30; 40].
Proof.
  assert (B : bounded (history small_monitor)).
  { unfold bounded. cbn. lia. }
  split; [exact B|].
  apply (proj2 (history_ring_buffer true small_monitor
                  [sample 10 false 1; no_battery 2]
                  [sample 20 false 3; sample 30 false 4; sample 40 false 5]
                  B)).
  - reflexivity.
  - reflexivity.
  - cbn. lia.
Defined.

(** C3, as stated, fails on a run that meets a tick without a battery:
    with a capacity of 2, after the four ticks 10, 20, no battery, 30 the
    history holds the single value 30, not the last two values that
    arrived. *)
Lemma history_ring_buffer_counterexample :
  let tks := [sample 10 false 1; sample 20 false 2; no_battery 3;
              sample 30 false 4] in
  let h := history (fst (run true small_monitor tks)) in
  (Py.maxlen h <= List.length tks)%nat
  /\ arrived tks = [10; 20; 30]
  /\ Py.items h = [30]
  /\ Py.items h <> lastn (Py.maxlen h) (arrived tks).
Proof.
  cbv zeta. split; [vm_compute; lia|]. split; [reflexivity|].
  split; [reflexivity|]. vm_compute. discriminate.
Qed.



Lemma rate_per_hour_spec_witness :
  (shown_rate
     (nth 0 (snd (run true default_monitor
                    [sample 50 false 1000;
                     sample 45 false (1000 + 1800)%Q])) []) = None
   /\ shown_rate
        (nth 1 (snd (run true default_monitor
                       [sample 50 false 1000;
                        sample 45 false (1000 + 1800)%Q])) [])
      = Some 0%Q)
  /\ (exists r,
         shown_rate
           (nth 1 (snd (run true (warmed true default_monitor)
                          [sample 50 false 1000;
                           sample 45 false (1000 + 1800)%Q])) [])
         = Some r
         /\ (r == -10)%Q).
Proof.
  destruct (rate_per_hour_spec true) as (_ & B & C).
  split.
  - apply (B default_monitor false 1000%Q eq_refl cold_default room_default
             eq_refl).
  - apply (C (warmed true default_monitor) false 1000%Q eq_refl
             warm_warmed_default).
    intros H. discriminate H.
Defined.




Lemma save_and_close_ranges_witness :
  1 <= seuil_critique
         (fst (save_and_close true default_monitor (form_of 0 200 10 0 99)))
    <= 99
  /\ 1000 <= interval_ms
               (fst (save_and_close true default_monitor
                       (form_of 0 200 10 0 99))).
Proof.
  pose proof (save_and_close_ranges true default_monitor
                (form_of 0 200 10 0 99) eq_refl) as H.
  cbv zeta in H. destruct H as (A & _ & B & _).
  split; [exact A|exact B].
Defined.

(** C8, as stated, fails on the hibernate threshold: saving a critical
    threshold of 1 and a hibernate threshold of 20 stores both as they
    are, the second above the first. *)
Lemma save_and_close_ranges_counterexample :
  let m' := fst (save_and_close true default_monitor
                   (form_of 1 95 5000 20 20)) in
  seuil_critique m' = 1
  /\ hibernate_threshold m' = 20
  /\ ~ hibernate_threshold m' <= seuil_critique m'.
Proof.
  cbv zeta. split; [reflexivity|]. split; [reflexivity|].
  vm_compute. intros H. apply H. reflexivity.
Qed.

Lemma critical_side_effects_only_with_alert_witness :
  fires is_critical_alert
    (snd (update_interface true (warmed true command_monitor)
            (sample 10 false 1))) = true
  /\ fires is_critical_side_effect
       (snd (update_interface true
               (set_deja_alerte_critique true (warmed true command_monitor))
               (sample 10 false 1))) = false.
Proof.
  split.
  - apply (proj1 (critical_side_effects_only_with_alert true
                    (warmed true command_monitor) (sample 10 false 1))).
    reflexivity.
  - apply (proj2 (critical_side_effects_only_with_alert true
                    (set_deja_alerte_critique true
                       (warmed true command_monitor))
                    (sample 10 false 1))).
    reflexivity.
Defined.

(** A dialog whose interval does not read stops [save_and_close] half way:
    the two thresholds are stored, the rest is not, nothing is saved. *)
Example save_and_close_bad_interval :
  save_and_close true default_monitor (form_bad_interval 10 90)
  = (set_seuil_plein 90 (set_seuil_critique 10 default_monitor), [ShowError]).
Proof. reflexivity. Qed.

(** The first reading of the default monitor stops in [draw_history]:
    the gauge is drawn, the exception logged, the timer re-armed. *)
Example first_reading_aborted :
  update_interface true default_monitor first_reading
  = (set_history {| Py.items := [50]; Py.maxlen := 60 |} default_monitor,
     [DrawGauge 50 false; Log ErreurUpdate; After 5000]).
Proof. reflexivity. Qed.

(** * The further properties at concrete inputs *)

Lemma tick_rearms_timer_witness :
  count is_after (snd (update_interface true default_monitor raising_tick))
  = 1%nat
  /\ last (snd (update_interface true default_monitor (sample 10 false 1)))
       LabelLast = After 5000
  /\ update_interface true (quit_app default_monitor) (sample 10 false 1)
     = (quit_app default_monitor, []).
Proof.
  split; [|split].
  - apply (proj1 (tick_rearms_timer true default_monitor raising_tick)).
    reflexivity.
  - apply (proj1 (tick_rearms_timer true default_monitor
                    (sample 10 false 1))).
    reflexivity.
  - apply (proj2 (tick_rearms_timer true (quit_app default_monitor)
                    (sample 10 false 1))).
    reflexivity.
Defined.

Lemma hibernate_needs_consent_witness :
  fires is_hibernate
    (snd (update_interface true (warmed true hibernate_monitor) yes_tick))
  = true.
Proof.
  apply (proj2 (hibernate_needs_consent true (warmed true hibernate_monitor)
                  yes_tick)).
  repeat split; try reflexivity.
  exists 7, false. split; [reflexivity|]. vm_compute. discriminate.
Defined.

Lemma no_windows_actions_elsewhere_witness :
  fires is_windows_action
    (snd (update_interface false hibernate_monitor yes_tick)) = false
  /\ fires is_windows_action
       (snd (save_and_close false hibernate_monitor
               (open_settings (set_autorun_attr true default_monitor) true)))
     = false.
Proof.
  apply (no_windows_actions_elsewhere false hibernate_monitor yes_tick
           (open_settings (set_autorun_attr true default_monitor) true)).
  reflexivity.
Defined.

Lemma rate_sign_witness :
  exists r,
    shown_rate
      (snd (update_interface true
              (fst (update_interface true (warmed true default_monitor)
                      (sample 50 false 1000)))
              (sample 45 false 2800)))
    = Some r
    /\ (r < 0)%Q.
Proof.
  destruct (rate_sign true
              (fst (update_interface true (warmed true default_monitor)
                      (sample 50 false 1000)))
              (sample 45 false 2800) _ 50 1000%Q
              eq_refl eq_refl eq_refl eq_refl eq_refl)
    as (r & S & _ & N & _).
  - intros H. discriminate H.
  - reflexivity.
  - exists r. split; [exact S|]. apply N. reflexivity.
Defined.

Lemma round_nearest_witness :
  Z.even (Py.round (5 # 2)) = true
  /\ Py.round (5 # 2) <= Py.round (7 # 2).
Proof.
  destruct (round_nearest (5 # 2) (7 # 2)) as (_ & E & _ & M).
  split.
  - apply E. right. reflexivity.
  - apply M. discriminate.
Defined.

Lemma application_invariants_witness :
  let m' := fst (run_ops true default_monitor
                   [Tick (sample 50 false 1); Save (form_bad_interval 10 90);
                    Tick (no_battery 2); Quit; Tick (sample 40 false 3)]) in
  bounded (history m')
  /\ Py.maxlen (history m') = 60%nat
  /\ history_size m' = 60
  /\ paired m'.
Proof.
  apply (application_invariants true DEFAULT_CONFIG default_monitor
           [Tick (sample 50 false 1); Save (form_bad_interval 10 90);
            Tick (no_battery 2); Quit; Tick (sample 40 false 3)]).
  reflexivity.
Defined.

Lemma ranges_kept_witness :
  in_range default_monitor
  /\ in_range (fst (run_ops true default_monitor
                      [Save (form_bad_interval 0 200);
                       Tick (sample 50 false 1)])).
Proof.
  assert (I : in_range default_monitor).
  { unfold in_range. cbn. lia. }
  split; [exact I|].
  apply (ranges_kept true default_monitor
           [Save (form_bad_interval 0 200); Tick (sample 50 false 1)] I).
Defined.

Lemma format_time_minutes_witness :
  (exists h m,
      0 <= h /\ 0 <= m < 60
      /\ 3600 * h + 60 * m <= 3725 < 3600 * h + 60 * m + 60
      /\ format_time (-2) (-1) (Some 3725)
         = if 0 <? h
           then (str_of_int h ++ "h " ++ str_of_int m ++ "m")%string
           else (str_of_int m ++ " min")%string)
  /\ (format_time (-2) (-1) (Some (-5)) = "illimité"%string
      \/ format_time (-2) (-1) (Some (-5)) = "calcul..."%string).
Proof.
  split.
  - apply (proj1 (format_time_minutes (-2) (-1) 3725)); lia.
  - apply (proj2 (format_time_minutes (-2) (-1) (-5))). lia.
Defined.



Lemma save_untouched_dialog_witness :
  save_and_close true default_monitor (open_settings default_monitor true)
  = (default_monitor, [SaveConfig; ShowInfo; WinDestroy]).
Proof.
  apply (save_untouched_dialog true default_monitor true).
  unfold in_range. cbn. lia.
Defined.

Lemma scale_values_stored_witness :
  let m' := fst (save_and_close true default_monitor
                   (form_of 30 80 500 15 10)) in
  on_scales (form_of 30 80 500 15 10)
  /\ crit_var (form_of 30 80 500 15 10) = Returns (seuil_critique m')
  /\ interval_ms m' = Z.max 1000 500.
Proof.
  cbv zeta.
  assert (S : on_scales (form_of 30 80 500 15 10)).
  { exists 30, 80, 15, 10. cbn. repeat split; lia. }
  split; [exact S|].
  destruct (scale_values_stored true default_monitor
              (form_of 30 80 500 15 10) S) as (A & _ & B).
  split; [exact A|]. apply (B 500 eq_refl).
Defined.

Lemma save_commits_when_valid_witness :
  (exists pre,
      snd (save_and_close true default_monitor (form_of 10 90 2000 5 20))
      = pre ++ [SaveConfig; ShowInfo; WinDestroy])
  /\ snd (save_and_close true default_monitor (form_bad_interval 10 90))
     = [ShowError].
Proof.
  split.
  - destruct (proj1 (save_commits_when_valid true default_monitor
                       (form_of 10 90 2000 5 20)) eq_refl) as (pre & E & _).
    exists pre. exact E.
  - apply (proj1 (proj2 (save_commits_when_valid true default_monitor
                           (form_bad_interval 10 90)))).
    reflexivity.
Defined.

Lemma settings_survive_restart_witness :
  init (fun _ => None) (fun _ => EmptyString)
    (fst (load_config (save_config command_monitor None true) false))
  = Some (init_attributes (settings_of command_monitor)).
Proof.
  apply (settings_survive_restart (fun _ => None) (fun _ => EmptyString)
           command_monitor None false).
  - vm_compute. discriminate.
  - vm_compute. discriminate.
Defined.

Lemma load_config_fallback_witness :
  fst (load_config (Some Raises) true) = JObj DEFAULT_CONFIG_items
  /\ snd (load_config (Some Raises) true)
     = Some (Returns (JObj DEFAULT_CONFIG_items))
  /\ load_config (Some (Returns (JArr []))) true
     = (JArr [], Some (Returns (JArr []))).
Proof.
  destruct (load_config_fallback (fun _ => None) (fun _ => EmptyString)
              (Some Raises) true true) as (_ & F & _).
  destruct (F (or_intror eq_refl)) as (A & B & _).
  split; [exact A|]. split; [exact B|].
  apply (proj1 (load_config_fallback (fun _ => None) (fun _ => EmptyString)
                  (Some (Returns (JArr []))) true true)).
  reflexivity.
Defined.

Lemma init_raises_when_witness :
  init (fun _ => None) (fun _ => EmptyString) (JArr []) = None
  /\ init (fun _ => None) (fun _ => EmptyString)
       (JObj [("history_size"%string, JInt (-1))]) = None
  /\ init (fun _ => None) (fun _ => EmptyString)
       (JObj [("history_size"%string, JInt (2 ^ 63))]) = None
  /\ init (fun _ => None) (fun _ => EmptyString)
       (JObj [("seuil_critique"%string, JNull)]) = None.
Proof.
  split; [|split; [|split]].
  - apply (proj2 (init_raises_when (fun _ => None) (fun _ => EmptyString)
                    (JArr []))).
    left. intros o. discriminate.
  - apply (proj2 (init_raises_when (fun _ => None) (fun _ => EmptyString)
                    (JObj [("history_size"%string, JInt (-1))]))).
    right. eexists. split; [reflexivity|]. right. exists (-1).
    split; [reflexivity|left; lia].
  - apply (proj2 (init_raises_when (fun _ => None) (fun _ => EmptyString)
                    (JObj [("history_size"%string, JInt (2 ^ 63))]))).
    right. eexists. split; [reflexivity|]. right. exists (2 ^ 63).
    split; [reflexivity|right; reflexivity].
  - apply (proj2 (init_raises_when (fun _ => None) (fun _ => EmptyString)
                    (JObj [("seuil_critique"%string, JNull)]))).
    right. eexists. split; [reflexivity|]. left.
    exists "seuil_critique"%string. split; [cbn; tauto|reflexivity].
Defined.

